(** * Healthion API: identity resolution and Open Wearables registration

    A shallow embedding of
      - [app/models/user.py] and [migrations/versions/001_init.py]
        (the [user] table and its constraints),
      - [app/services/open_wearables_client.py] ([create_user] and what it
        calls),
      - [app/services/user_service.py] ([get_or_create_user],
        [register_with_open_wearables]),
      - [app/services/wearables_service.py] ([register_user]),
      - [app/utils/auth_dependencies.py] ([get_current_user]).

    Python code that mutates the database, talks HTTP, logs and raises is
    written in a state-and-exception monad over a [world]: the [user] table
    and the chronological list of observable events (HTTP requests sent, SQL
    statements executed, log records). What the outside answers (the Open
    Wearables platform, the datastore's availability) is an explicit input of
    each call. *)

From stdpp Require Import base option list strings gmap pretty.
From Stdlib Require Import NArith Lia Ascii.

Open Scope string_scope.
Open Scope list_scope.

(** ** Data model *)

(** [uuid.UUID]: a 128-bit value; only its identity matters here. *)
Definition UUID := N.
Definition timestamp := N.
Bind Scope N_scope with UUID timestamp.

(** [class User(BaseDbModel)], one row of table [user]. *)
Record User := mkUser {
  id : UUID;
  auth0_id : string;
  email : string;
  open_wearables_user_id : option UUID;
  created_at : timestamp;
  updated_at : timestamp;
}.

Global Instance User_eq_dec : EqDecision User.
Proof. solve_decision. Defined.

(** The exceptions the modelled code can see. All of them derive from
    Python's [Exception]. *)
Inductive exn :=
| ValueError
| TypeError
| OpenWearablesConfigurationError
| HTTPRequestError                (* httpx: transport failure *)
| HTTPStatusError (status : N)    (* httpx: [raise_for_status] *)
| OperationalError                (* SQLAlchemy: the statement could not run *)
| IntegrityError                  (* SQLAlchemy: a constraint was violated *)
| InvalidRequestError             (* SQLAlchemy: [refresh] found no row *)
| NoResultFound                   (* the row to update is gone *)
| ValidationError.                (* pydantic *)

Global Instance exn_eq_dec : EqDecision exn.
Proof. solve_decision. Defined.

(** A JSON object whose fields are strings, as a Python [dict]. *)
Abbreviation dict := (gmap string string).

(** Structured log messages (the f-strings of the source, with their
    arguments). *)
Inductive message :=
| MsgAlreadyRegistered (uid : UUID)
| MsgRegistered (uid ow : UUID)
| MsgRegisteredByAnother (uid : UUID)
| MsgRegisterFailed (uid : UUID) (e : exn)
| MsgExistsInOW (external_id : string) (ow : option string)
| MsgNotConfigured (e : exn)
| MsgAutoRegisterFailed (e : exn).

Inductive level := INFO | WARNING | ERROR.

(** Everything a call does that the outside can observe. *)
Inductive event :=
| HttpGet (path : string) (params : list (string * string))
| HttpPost (path : string) (json : list (string * string))
| SqlUpdateLink (uid ow : UUID) (rowcount : nat)
| SqlUpdateEmail (uid : UUID) (new_email : string)
| SqlInsert (row : User)
| Log (l : level) (m : message).

Global Instance message_eq_dec : EqDecision message.
Proof. solve_decision. Defined.
Global Instance level_eq_dec : EqDecision level.
Proof. solve_decision. Defined.
Global Instance event_eq_dec : EqDecision event.
Proof. solve_decision. Defined.

Record world := World {
  tbl : list User;        (* table [user] *)
  trace : list event;     (* oldest event first *)
}.

(** ** The monad of Python code: state and exceptions *)

Inductive result (A : Type) :=
| Ok (a : A)
| Raised (e : exn).
Arguments Ok {A} a.
Arguments Raised {A} e.

Definition M (A : Type) : Type := world → result A * world.

Definition ret {A} (a : A) : M A := λ w, (Ok a, w).
Definition raise {A} (e : exn) : M A := λ w, (Raised e, w).
Definition bind {A B} (m : M A) (k : A → M B) : M B :=
  λ w, match m w with
       | (Ok a, w') => k a w'
       | (Raised e, w') => (Raised e, w')
       end.
(** [try: m except Exception as e: h e] *)
Definition try_except {A} (m : M A) (h : exn → M A) : M A :=
  λ w, match m w with
       | (Ok a, w') => (Ok a, w')
       | (Raised e, w') => h e w'
       end.

Declare Scope py_scope.
Delimit Scope py_scope with py.
Notation "'let!' x ':=' m 'in' k" := (bind m (λ x, k))
  (at level 10, x name, m at level 100, k at level 200) : py_scope.
Notation "'do!' m 'in' k" := (bind m (λ _, k))
  (at level 10, m at level 100, k at level 200) : py_scope.
Open Scope py_scope.

Definition emit (e : event) : M unit :=
  λ w, (Ok tt, World (tbl w) (trace w ++ [e])).
Definition get_tbl : M (list User) := λ w, (Ok (tbl w), w).
Definition put_tbl (t : list User) : M unit :=
  λ w, (Ok tt, World t (trace w)).

(** ** Python truthiness *)

(** [a or b] on values that are [None] or a [str]. *)
Definition str_truthy (o : option string) : bool :=
  match o with
  | Some s => negb (String.eqb s "")
  | None => false
  end.
Definition py_or (a b : option string) : option string :=
  if str_truthy a then a else b.

(** [bool(d)] for an optional [dict]: [None] and [{}] are falsy. *)
Definition dict_truthy (o : option dict) : bool :=
  match o with
  | Some d => negb (bool_decide (d = ∅))
  | None => false
  end.

(** ** What the outside answers *)

(** The outcome of one HTTP request as httpx reports it: the transport
    failed, or a response arrived with a status and a decoded JSON body. *)
Inductive http_reply (A : Type) :=
| NetworkError
| Response (status : N) (body : A).
Arguments NetworkError {A}.
Arguments Response {A} status body.

(** The answers one call of [register_with_open_wearables] gets:
    - [find_reply]: to [GET /api/v1/users?external_user_id=..&limit=1]; the
      body is [data.get("items", [])];
    - [create_reply]: to [POST /api/v1/users];
    - [update_fails]: the datastore refuses to run the UPDATE statement. *)
Record ow_env := OwEnv {
  find_reply : http_reply (list dict);
  create_reply : http_reply dict;
  update_fails : bool;
}.

(** httpx [Response.is_success]: [raise_for_status] raises unless 2xx. *)
Definition is_success (status : N) : bool :=
  (200 <=? status)%N && (status <=? 299)%N.

(** ** The [user] table *)

(** [db.query(User).filter(User.id == user_id).first()] *)
Definition get_user_by_id (t : list User) (uid : UUID) : option User :=
  head (filter (λ r, id r = uid) t).

Definition set_link (r : User) (ow : UUID) : User :=
  mkUser (id r) (auth0_id r) (email r) (Some ow) (created_at r) (updated_at r).

(** The rows [UPDATE user SET open_wearables_user_id = :ow
    WHERE id = :uid AND open_wearables_user_id IS NULL] matches. *)
Definition unlinked (uid : UUID) (r : User) : Prop :=
  id r = uid ∧ open_wearables_user_id r = None.

Global Instance unlinked_dec uid r : Decision (unlinked uid r).
Proof. unfold unlinked. apply _. Defined.

Definition apply_update_link (uid ow : UUID) (t : list User) : list User :=
  (λ r, if decide (unlinked uid r) then set_link r ow else r) <$> t.

Definition rowcount_update_link (uid : UUID) (t : list User) : nat :=
  length (filter (unlinked uid) t).

(** What the persistence layer supplies when it writes a row: the primary
    key it generates and the current time. *)
Record crud_env := CrudEnv {
  new_id : UUID;
  now : timestamp;
}.

(** What [auth0_service] (not among the sources) hands to
    [get_current_user] for a token that verifies: the payload of
    [verify_token], [get_user_id(payload)], [get_user_permissions(payload)],
    the configured [audience], and what [get_user_email(token)] does. *)
Record verified := Verified {
  v_payload : dict;
  v_auth0_id : string;
  v_permissions : list string;
  v_audience : string;
  v_userinfo_email : result (option string);
}.

(** ** JSON values and string tests of the client *)

(** A decoded JSON value. Numbers are the integers the code builds; objects
    keep their fields in order. *)
Unset Elimination Schemes.
Inductive json :=
| JNull
| JBool (b : bool)
| JNum (n : Z)
| JStr (s : string)
| JArr (items : list json)
| JObj (fields : list (string * json)).
Set Elimination Schemes.

(** [d.get(key)] on the fields of an object. *)
Fixpoint assoc {A} (key : string) (fields : list (string * A)) : option A :=
  match fields with
  | [] => None
  | (k, v) :: rest => if String.eqb key k then Some v else assoc key rest
  end.

(** [s.startswith(p)] *)
Fixpoint str_startswith (p s : string) : bool :=
  match p, s with
  | EmptyString, _ => true
  | String a p', String b s' => Ascii.eqb a b && str_startswith p' s'
  | String _ _, EmptyString => false
  end.

(** [needle in s] for two strings. *)
Fixpoint str_in (needle s : string) : bool :=
  str_startswith needle s ||
  match s with
  | EmptyString => false
  | String _ s' => str_in needle s'
  end.

(** [needle in x] for a string [needle] and a decoded JSON value [x]:
    substring of a string, element of a list, key of an object; on [None],
    a bool or a number Python raises [TypeError]. *)
Definition py_in (needle : string) (x : json) : result bool :=
  match x with
  | JStr s => Ok (str_in needle s)
  | JArr items =>
      Ok (existsb (λ j, match j with
                        | JStr s => String.eqb s needle
                        | _ => false
                        end) items)
  | JObj fields => Ok (existsb (λ kv, String.eqb kv.1 needle) fields)
  | JNull | JBool _ | JNum _ => Raised TypeError
  end.

(** What [datetime] hands to [sync_user_data]: [now - 24h] and [now] as
    ["%Y-%m-%dT%H:%M:%S"], and [int((now - 7 days).timestamp())] in
    decimal. *)
Record sync_clock := SyncClock {
  garmin_start : string;
  garmin_end : string;
  suunto_since : string;
}.

(** What a route answers: its response model, or an [HTTPException] with
    its [status_code] and its [detail] (the text before [str(e)] and the
    exception [e] formatted into it, if any). *)
Inductive answer (A : Type) :=
| Answer (a : A)
| HTTPException (status_code : N) (detail : string) (cause : option exn).
Arguments Answer {A} a.
Arguments HTTPException {A} status_code detail cause.

(** ** Sample data

    Concrete users, answers and a stand-in for the UUID constructor, for the
    examples at the end. *)
Module Sample.

Definition hex_digit (a : ascii) : option N :=
  let n := N_of_ascii a in
  if (48 <=? n)%N && (n <=? 57)%N then Some (n - 48)%N
  else if (97 <=? n)%N && (n <=? 102)%N then Some (n - 87)%N
  else if (65 <=? n)%N && (n <=? 70)%N then Some (n - 55)%N
  else None.

Fixpoint hex_value (s : string) (acc : N) (digits : nat) : option (N * nat) :=
  match s with
  | EmptyString => Some (acc, digits)
  | String a s' =>
      if Ascii.eqb a "-"%char then hex_value s' acc digits
      else match hex_digit a with
           | Some d => hex_value s' (16 * acc + d)%N (S digits)
           | None => None
           end
  end.

(** Accepts the 32 hexadecimal digits of a UUID, hyphens skipped. *)
Definition uuid_of_str (s : string) : option UUID :=
  match hex_value s 0%N 0%nat with
  | Some (v, 32%nat) => Some v
  | _ => None
  end.

Definition alice : User :=
  mkUser 1%N "auth0|abc" "a@x.com" None 100%N 100%N.
Definition bob : User :=
  mkUser 2%N "auth0|def" "b@x.com" None 101%N 101%N.
Definition alice_linked : User := set_link alice 123%N.

Definition ow_a : string := "00000000-0000-0000-0000-00000000007b".
Definition ow_b : string := "00000000-0000-0000-0000-0000000001c8".

Definition account (ow : string) : dict := {[ "id" := ow ]}.

(** The lookup finds an account. *)
Definition env_found : ow_env :=
  OwEnv (Response 200%N [account ow_a]) NetworkError false.
(** The lookup finds none and the POST creates one. *)
Definition env_created : ow_env :=
  OwEnv (Response 200%N []) (Response 201%N (account ow_b)) false.
(** The platform cannot be reached. *)
Definition env_down : ow_env := OwEnv NetworkError NetworkError false.

Definition w0 : world := World [alice; bob] [].
Definition w_linked : world := World [alice_linked; bob] [].

Definition cenv0 : crud_env := CrudEnv 3%N 200%N.

Definition token0 : verified :=
  Verified {[ "email" := "a@x.com" ]} "auth0|abc" ["read:data"]
           "https://api.healthion" (Ok None).

Definition racers : list (User * ow_env) :=
  [(alice, env_found); (alice, env_created); (alice, env_found)].
Definition interleaving : list nat :=
  [0; 1; 2; 1; 1; 0; 2; 2; 1; 0; 1; 0; 2; 0; 2]%nat.

(** Stand-ins for [str.lower()] (on ASCII letters) and for [str(uuid)]. *)
Definition lower_char (a : ascii) : ascii :=
  let n := N_of_ascii a in
  if (65 <=? n)%N && (n <=? 90)%N then ascii_of_N (n + 32) else a.

Fixpoint ascii_lower (s : string) : string :=
  match s with
  | EmptyString => EmptyString
  | String a s' => String (lower_char a) (ascii_lower s')
  end.

Definition str_of_uuid (u : UUID) : string := pretty u.

Definition clock0 : sync_clock :=
  SyncClock "2026-01-01T00:00:00" "2026-01-02T00:00:00" "1766707200".

(** The lookup is answered with a 500. *)
Definition env_broken : ow_env :=
  OwEnv (Response 500%N []) NetworkError false.


Definition listed_users : list dict :=
  [ {[ "id" := ow_b; "email" := "b@x.com" ]};
    {[ "id" := ow_a; "email" := "a@x.com" ]};
    {[ "id" := ow_b; "email" := "a@x.com" ]} ].

Definition duplicate_detail : list (string * json) :=
  [("detail", JStr "UniqueViolation: key already exists; InvalidPullTokenException")].

Definition token_linked : verified :=
  Verified ∅ "auth0|abc" [] "https://api.healthion" (Ok (Some "a@x.com")).

End Sample.

Section Healthion.

(** [settings.open_wearables_api_key] *)
Variable api_key : string.

(** [uuid.UUID(hex)] of the standard library on a string; [None] where it
    raises [ValueError] (badly formed hexadecimal UUID string). *)
Variable UUID_of_str : string → option UUID.

(** ** [app/services/open_wearables_client.py] *)

Definition is_configured : bool := negb (String.eqb api_key "").

Definition _ensure_configured : M unit :=
  if is_configured then ret tt else raise OpenWearablesConfigurationError.

Definition _get_headers : M (list (string * string)) :=
  do! _ensure_configured in
  ret [("X-Open-Wearables-API-Key", api_key);
       ("Content-Type", "application/json")].

(** The arguments of [client.get] (the headers among them) are evaluated
    before the request leaves; [items[0] if items else None] is [head]. *)
Definition find_user_by_external_id (env : ow_env) (external_id : string)
  : M (option dict) :=
  let! _ := _get_headers in
  do! emit (HttpGet "/api/v1/users"
              [("external_user_id", external_id); ("limit", "1")]) in
  match find_reply env with
  | NetworkError => raise HTTPRequestError
  | Response status items =>
      if is_success status then ret (head items)
      else raise (HTTPStatusError status)
  end.

(** The second half of [create_user]: the POST. *)
Definition post_user (env : ow_env) (external_id email : string) : M dict :=
  let! _ := _get_headers in
  do! emit (HttpPost "/api/v1/users"
              [("external_user_id", external_id); ("email", email)]) in
  match create_reply env with
  | NetworkError => raise HTTPRequestError
  | Response status body =>
      if is_success status then ret body
      else raise (HTTPStatusError status)
  end.

(** What [create_user] does with the answer of the lookup. *)
Definition after_find (env : ow_env) (external_id email : string)
    (existing : option dict) : M dict :=
  match existing with
  | Some d =>
      if dict_truthy existing then
        do! emit (Log INFO (MsgExistsInOW external_id (d !! "id"))) in
        ret d
      else post_user env external_id email
  | None => post_user env external_id email
  end.

(** [OpenWearablesClient.create_user]. The per-email [asyncio.Lock] only
    delays a caller; it changes no value and is always released, so it is
    not part of the state. *)
Definition create_user (env : ow_env) (external_id email : string) : M dict :=
  let! existing := find_user_by_external_id env external_id in
  after_find env external_id email existing.

(** ** [app/services/user_service.py]: the Registration Coordinator *)

(** [UUID(x)]: [UUID(None)] raises [TypeError]. *)
Definition UUID_ (x : option string) : M UUID :=
  match x with
  | None => raise TypeError
  | Some s =>
      match UUID_of_str s with
      | Some u => ret u
      | None => raise ValueError
      end
  end.

(** [UUID(result.get("id") or result.get("user_id"))] *)
Definition ow_id_of (result : dict) : M UUID :=
  UUID_ (py_or (result !! "id") (result !! "user_id")).

(** [db_session.execute(stmt); db_session.commit()]: one atomic statement
    of the datastore; yields [result.rowcount]. *)
Definition execute_update_link (env : ow_env) (uid ow : UUID) : M nat :=
  if update_fails env then raise OperationalError
  else
    let! t := get_tbl in
    let rc := rowcount_update_link uid t in
    do! put_tbl (apply_update_link uid ow t) in
    do! emit (SqlUpdateLink uid ow rc) in
    ret rc.

(** [db_session.refresh(user)]: reloads the row of [user]'s primary key. *)
Definition refresh (user : User) : M User :=
  let! t := get_tbl in
  match get_user_by_id t (id user) with
  | Some row => ret row
  | None => raise InvalidRequestError
  end.

(** [if result.rowcount > 0: ... else: ...] *)
Definition log_rowcount (user : User) (ow : UUID) (rc : nat) : M unit :=
  if decide (0 < rc) then emit (Log INFO (MsgRegistered (id user) ow))
  else emit (Log INFO (MsgRegisteredByAnother (id user))).

(** [except Exception as e: self.logger.error(...); raise] *)
Definition log_and_reraise {A} (user : User) (e : exn) : M A :=
  do! emit (Log ERROR (MsgRegisterFailed (id user) e)) in
  raise e.

(** [UserService.register_with_open_wearables] *)
Definition register_with_open_wearables (env : ow_env) (user : User) : M User :=
  match open_wearables_user_id user with
  | Some _ =>
      do! emit (Log INFO (MsgAlreadyRegistered (id user))) in
      ret user
  | None =>
      try_except
        (let! result := create_user env (auth0_id user) (email user) in
         let! ow_user_id := ow_id_of result in
         let! rc := execute_update_link env (id user) ow_user_id in
         do! log_rowcount user ow_user_id rc in
         refresh user)
        (log_and_reraise user)
  end.

(** ** [app/services/wearables_service.py] *)

Record RegisterOpenWearablesResponse := mkRegisterResponse {
  resp_open_wearables_user_id : UUID;
  already_registered : bool;
}.

(** [WearablesService.register_user]. The response model requires a UUID:
    building it from [None] is a pydantic [ValidationError]. *)
Definition register_user (env : ow_env) (user : User)
  : M RegisterOpenWearablesResponse :=
  match open_wearables_user_id user with
  | Some ow => ret (mkRegisterResponse ow true)
  | None =>
      let! updated_user := register_with_open_wearables env user in
      match open_wearables_user_id updated_user with
      | Some ow => ret (mkRegisterResponse ow false)
      | None => raise ValidationError
      end
  end.

(** ** Concurrent callers of the Registration Coordinator

    One call of [register_with_open_wearables] cut at the points where other
    callers (tasks of this process, or other processes sharing the
    datastore) can run: before each HTTP request, before the UPDATE
    statement and before the reload. *)

Inductive pc :=
| AtEntry                          (* the fast-path check *)
| AtFind                           (* about to send the GET *)
| AtCreate                         (* about to send the POST *)
| AtUpdate (ow : UUID)             (* about to execute the UPDATE *)
| AtRefresh (ow : UUID) (rc : nat) (* about to log and reload the row *)
| Finished (r : result User).      (* returned or raised *)

Record task := Task {
  t_user : User;      (* the caller's in-memory [user] object *)
  t_env : ow_env;     (* what the outside answers this caller *)
  t_pc : pc;
}.

(** A step that raises inside the [try] runs the handler and finishes. *)
Definition settle (user : User) (m : M pc) (w : world) : pc * world :=
  match m w with
  | (Ok p, w') => (p, w')
  | (Raised e, w') =>
      (Finished (Raised e), snd (log_and_reraise (A:=User) user e w'))
  end.

Definition task_step (t : task) (w : world) : task * world :=
  let user := t_user t in
  let env := t_env t in
  let '(p, w') :=
    match t_pc t with
    | AtEntry =>
        match open_wearables_user_id user with
        | Some _ =>
            (Finished (Ok user),
             snd (emit (Log INFO (MsgAlreadyRegistered (id user))) w))
        | None => (AtFind, w)
        end
    | AtFind =>
        settle user
          (let! existing := find_user_by_external_id env (auth0_id user) in
           match existing with
           | Some d =>
               if dict_truthy existing then
                 do! emit (Log INFO
                        (MsgExistsInOW (auth0_id user) (d !! "id"))) in
                 let! ow := ow_id_of d in
                 ret (AtUpdate ow)
               else ret AtCreate
           | None => ret AtCreate
           end) w
    | AtCreate =>
        settle user
          (let! result := post_user env (auth0_id user) (email user) in
           let! ow := ow_id_of result in
           ret (AtUpdate ow)) w
    | AtUpdate ow =>
        settle user
          (let! rc := execute_update_link env (id user) ow in
           ret (AtRefresh ow rc)) w
    | AtRefresh ow rc =>
        settle user
          (do! log_rowcount user ow rc in
           let! user' := refresh user in
           ret (Finished (Ok user'))) w
    | Finished r => (Finished r, w)
    end in
  (Task user env p, w').

(** The shared world and the pool of callers. *)
Record system := System {
  sys_world : world;
  sys_tasks : list task;
}.

(** The scheduler lets caller [i] take its next step. *)
Definition sched_step (s : system) (i : nat) : system :=
  match sys_tasks s !! i with
  | Some t =>
      let '(t', w') := task_step t (sys_world s) in
      System w' (<[i := t']> (sys_tasks s))
  | None => s
  end.

Definition run (sched : list nat) (s : system) : system :=
  foldl sched_step s sched.

(** One caller taking [n] steps in a row, nobody else running. *)
Fixpoint run_task (n : nat) (t : task) (w : world) : task * world :=
  match n with
  | O => (t, w)
  | S n' => let '(t', w') := task_step t w in run_task n' t' w'
  end.

Definition finished (t : task) : bool :=
  match t_pc t with Finished _ => true | _ => false end.

(** [N] callers entering with their own [user] objects and answers. *)
Definition spawn (calls : list (User * ow_env)) : list task :=
  (λ c, Task c.1 c.2 AtEntry) <$> calls.

(** The cells of column [open_wearables_user_id] for primary key [uid]. *)
Definition links (uid : UUID) (t : list User) : list (option UUID) :=
  open_wearables_user_id <$> filter (λ r, id r = uid) t.

(** The rowcounts of the conditional updates run for [uid], in order. *)
Definition rowcounts (uid : UUID) (tr : list event) : list nat :=
  omap (λ e, match e with
             | SqlUpdateLink u _ rc => if decide (u = uid) then Some rc else None
             | _ => None
             end) tr.

Definition is_http (e : event) : bool :=
  match e with HttpGet _ _ | HttpPost _ _ => true | _ => false end.
Definition is_sql (e : event) : bool :=
  match e with
  | SqlUpdateLink _ _ _ | SqlUpdateEmail _ _ | SqlInsert _ => true
  | _ => false
  end.

(** ** [app/services/user_service.py]: the Identity Resolver *)

(** Modelled from the spec: [UserRepository.get_user_by_auth0_id]
    (app/repositories/user_repository.py is not among the sources); the
    User with this [external_identity_id], if one exists. *)
Definition get_user_by_auth0_id (t : list User) (auth0_id_ : string)
  : option User :=
  head (filter (λ r, auth0_id r = auth0_id_) t).

(** The constraints of migration [001_init]: [PrimaryKeyConstraint('id')],
    [UniqueConstraint('auth0_id')], [UniqueConstraint('email')]. *)
Definition conflicts (row : User) (r : User) : Prop :=
  id r = id row ∨ auth0_id r = auth0_id row ∨ email r = email row.

Global Instance conflicts_dec row r : Decision (conflicts row r).
Proof. unfold conflicts. apply _. Defined.

Definition email_taken (uid : UUID) (email_ : string) (r : User) : Prop :=
  id r ≠ uid ∧ email r = email_.

Global Instance email_taken_dec uid e r : Decision (email_taken uid e r).
Proof. unfold email_taken. apply _. Defined.

Definition set_email (r : User) (email_ : string) (at_ : timestamp) : User :=
  mkUser (id r) (auth0_id r) email_ (open_wearables_user_id r)
         (created_at r) at_.

(** Modelled from the spec: [AppService.create] (app/services/services.py
    is not among the sources); creates a User with the supplied fields, a
    generated [id], a null [upstream_user_id] and the timestamps of the
    persistence layer, and returns it. The datastore rejects a row that
    breaks a constraint of the table. *)
Definition create (cenv : crud_env) (auth0_id_ email_ : string) : M User :=
  let! t := get_tbl in
  let row := mkUser (new_id cenv) auth0_id_ email_ None (now cenv) (now cenv) in
  if decide (Exists (conflicts row) t) then raise IntegrityError
  else
    do! put_tbl (t ++ [row]) in
    do! emit (SqlInsert row) in
    ret row.

(** Modelled from the spec: [AppService.update] with [UserUpdate(email=..)]
    (app/services/services.py and app/schemas/user.py are not among the
    sources); updates the email of the row with this [id] and returns the
    refreshed row. The datastore rejects an email another row holds. *)
Definition update (cenv : crud_env) (uid : UUID) (email_ : string) : M User :=
  let! t := get_tbl in
  match get_user_by_id t uid with
  | None => raise NoResultFound
  | Some row =>
      if decide (Exists (email_taken uid email_) t) then raise IntegrityError
      else
        do! put_tbl ((λ r, if decide (id r = uid)
                           then set_email r email_ (now cenv) else r) <$> t) in
        do! emit (SqlUpdateEmail uid email_) in
        ret (set_email row email_ (now cenv))
  end.

(** [UserService.get_or_create_user]; [not s] holds of the empty string. *)
Definition get_or_create_user (cenv : crud_env) (auth0_id_ email_ : string)
  : M User :=
  if String.eqb auth0_id_ "" || String.eqb email_ "" then raise ValueError
  else
    let! t := get_tbl in
    match get_user_by_auth0_id t auth0_id_ with
    | Some user =>
        if decide (email user ≠ email_) then update cenv (id user) email_
        else ret user
    | None => create cenv auth0_id_ email_
    end.

(** ** [app/utils/auth_dependencies.py] *)

Record UserInfo := mkUserInfo {
  user_id : UUID;
  info_auth0_id : string;
  info_email : string;
  permissions : list string;
  payload : dict;
}.

Definition fallback_email (auth0_id_ : string) : string :=
  (auth0_id_ ++ "@unknown.com")%string.

(** [email or f"{auth0_id}@unknown.com"] *)
Definition or_fallback (email_ : option string) (auth0_id_ : string) : string :=
  match email_ with
  | Some s => if String.eqb s "" then fallback_email auth0_id_ else s
  | None => fallback_email auth0_id_
  end.

(** The email [get_current_user] passes on. *)
Definition token_email (v : verified) : string :=
  let email_ :=
    py_or (v_payload v !! "email") (v_payload v !! (v_audience v ++ "/email")%string) in
  let email_ :=
    if str_truthy email_ then email_
    else match v_userinfo_email v with
         | Ok e => e
         | Raised _ => Some (fallback_email (v_auth0_id v))
         end in
  or_fallback email_ (v_auth0_id v).

(** The two [except] clauses around the auto-registration. *)
Definition on_register_error (user : User) (e : exn) : M User :=
  match e with
  | OpenWearablesConfigurationError =>
      do! emit (Log ERROR (MsgNotConfigured e)) in ret user
  | _ =>
      do! emit (Log WARNING (MsgAutoRegisterFailed e)) in ret user
  end.

Definition get_current_user (v : verified) (cenv : crud_env) (env : ow_env)
  : M UserInfo :=
  let! user := get_or_create_user cenv (v_auth0_id v) (token_email v) in
  let! user :=
    match open_wearables_user_id user with
    | None =>
        try_except (register_with_open_wearables env user)
                   (on_register_error user)
    | Some _ => ret user
    end in
  ret (mkUserInfo (id user) (v_auth0_id v) (email user)
                  (v_permissions v) (v_payload v)).

Definition http_events (tr : list event) : list event :=
  filter (λ e, is_http e) tr.
Definition sql_events (tr : list event) : list event :=
  filter (λ e, is_sql e) tr.

(** ** Statements and invariants used below *)

(** The upstream call of this caller succeeds and its answer carries the
    well-formed id [ow], whenever it is made. *)
Definition upstream_answers (env : ow_env) (user : User) (ow : UUID) : Prop :=
  ∀ w, ∃ w',
    (let! result := create_user env (auth0_id user) (email user) in
     ow_id_of result) w = (Ok ow, w').

(** The same, read off the answers without running the client. *)
Definition parse_id (d : dict) : option UUID :=
  match py_or (d !! "id") (d !! "user_id") with
  | Some s => UUID_of_str s
  | None => None
  end.

Definition find_answer (env : ow_env) : option (option dict) :=
  if is_configured then
    match find_reply env with
    | Response status items =>
        if is_success status then Some (head items) else None
    | NetworkError => None
    end
  else None.

Definition post_answer (env : ow_env) : option dict :=
  if is_configured then
    match create_reply env with
    | Response status body => if is_success status then Some body else None
    | NetworkError => None
    end
  else None.

Definition post_gives (env : ow_env) (ow : UUID) : Prop :=
  ∃ d, post_answer env = Some d ∧ parse_id d = Some ow.

Definition upstream_gives (env : ow_env) (ow : UUID) : Prop :=
  ∃ existing, find_answer env = Some existing ∧
    match existing with
    | Some d =>
        if dict_truthy existing then parse_id d = Some ow
        else post_gives env ow
    | None => post_gives env ow
    end.

(** A caller that has executed its UPDATE. *)
Definition past_update (t : task) : Prop :=
  match t_pc t with
  | AtRefresh _ _ | Finished _ => True
  | _ => False
  end.

Global Instance past_update_dec t : Decision (past_update t).
Proof. unfold past_update. destruct (t_pc t); apply _. Defined.

(** What holds of each caller of the pool while they race for row [uid],
    whose link is [l]. *)
Definition task_inv (uid : UUID) (l : option UUID) (t : task) : Prop :=
  id (t_user t) = uid ∧
  open_wearables_user_id (t_user t) = None ∧
  update_fails (t_env t) = false ∧
  match t_pc t with
  | AtEntry | AtFind => ∃ ow, upstream_gives (t_env t) ow
  | AtCreate => ∃ ow, post_gives (t_env t) ow
  | AtUpdate _ | AtRefresh _ _ => True
  | Finished r =>
      ∃ u v, r = Ok u ∧ open_wearables_user_id u = Some v ∧ l = Some v
  end.

(** The invariant of the race: one row, and the rowcounts so far are a
    single 1 (once the row is linked) followed by 0s, one per caller past
    its UPDATE. [rc0] are the rowcounts recorded before the race. *)
Definition race_inv (uid : UUID) (rc0 : list nat) (s : system) : Prop :=
  ∃ l,
    links uid (tbl (sys_world s)) = [l] ∧
    Forall (task_inv uid l) (sys_tasks s) ∧
    let n := length (filter past_update (sys_tasks s)) in
    rowcounts uid (trace (sys_world s))
      = rc0 ++ match l with
               | None => []
               | Some _ => 1 :: replicate (n - 1) 0
               end ∧
    (l = None → n = 0) ∧ (l ≠ None → (1 ≤ n)%nat).

(** Code that leaves the table alone and only adds events. *)
Definition quiet {A} (m : M A) : Prop :=
  ∀ w, tbl (m w).2 = tbl w ∧ ∃ tr, trace (m w).2 = trace w ++ tr.

(** How a row may differ between two moments: not at all, or its null
    link has been set (and nothing else has changed). *)
Definition link_history (r r' : User) : Prop :=
  r' = r ∨ (open_wearables_user_id r = None ∧ ∃ ow, r' = set_link r ow).

(** The longest path a caller still has to go. *)
Definition steps_left (p : pc) : nat :=
  match p with
  | AtEntry => 5
  | AtFind => 4
  | AtCreate => 3
  | AtUpdate _ => 2
  | AtRefresh _ _ => 1
  | Finished _ => 0
  end.

(** The schedule lets each of the first [n] callers step at least [k]
    times. *)
Definition gives_each (sched : list nat) (n k : nat) : Prop :=
  ∀ i, (i < n)%nat → (k ≤ length (filter (λ j, j = i) sched))%nat.

(** The reading of the Identity Resolver under which any (non-empty) email
    that differs from the stored one is accepted. *)
Definition resolver_takes_any_email : Prop :=
  ∀ (cenv : crud_env) (w : world) (auth0_id_ email_ : string) (user : User),
    get_user_by_auth0_id (tbl w) auth0_id_ = Some user →
    email user ≠ email_ →
    auth0_id_ ≠ "" →
    email_ ≠ "" →
    ∃ user' w',
      get_or_create_user cenv auth0_id_ email_ w = (Ok user', w') ∧
      email user' = email_ ∧ id user' = id user.

(** ** More of [app/services/open_wearables_client.py] *)

(** [str(user_id)] of a [uuid.UUID], and [str.lower()], both of the
    standard library. *)
Variable str_of_UUID : UUID → string.
Variable str_lower : string → string.

(** [response = await client.get(url, headers=self._get_headers(),
    params=params)]: the status and the decoded body of the response. *)
Definition client_get {A} (path : string) (params : list (string * string))
    (reply : http_reply A) : M (N * A) :=
  let! _ := _get_headers in
  do! emit (HttpGet path params) in
  match reply with
  | NetworkError => raise HTTPRequestError
  | Response status body => ret (status, body)
  end.

(** [response.raise_for_status()] *)
Definition raise_for_status (status : N) : M unit :=
  if is_success status then ret tt else raise (HTTPStatusError status).

(** [OpenWearablesClient.find_user_by_email]: the first of the (at most
    100) listed users whose ["email"] is [email_]. *)
Definition find_user_by_email (reply : http_reply (list dict))
    (email_ : string) : M (option dict) :=
  let! r := client_get "/api/v1/users" [("limit", "100")] reply in
  do! raise_for_status r.1 in
  ret (head (filter (λ user, user !! "email" = Some email_) r.2)).

(** [str(x)] where the annotation says UUID and the caller may pass
    [None]. *)
Definition str_of_link (x : option UUID) : string :=
  match x with
  | Some u => str_of_UUID u
  | None => "None"
  end.

(** [if value: params[key] = value] *)
Definition optional_param (key : string) (value : option string)
  : list (string * string) :=
  match value with
  | Some s => if str_truthy value then [(key, s)] else []
  | None => []
  end.

(** [OpenWearablesClient.get_authorization_url] *)
Definition client_get_authorization_url (reply : http_reply dict)
    (provider : string) (user_id : option UUID)
    (redirect_uri : option string) : M dict :=
  let params :=
    [("user_id", str_of_link user_id)]
    ++ optional_param "redirect_uri" redirect_uri in
  let! r := client_get ("/api/v1/oauth/" +:+ provider +:+ "/authorize")
              params reply in
  do! raise_for_status r.1 in
  ret r.2.

(** The parameters shared by the event and summary endpoints; an [int] in
    [params] goes on the wire in decimal. *)
Definition date_range_params (start_date end_date : string) (limit : Z)
  : list (string * string) :=
  [("start_date", start_date); ("end_date", end_date);
   ("limit", pretty (limit `min` 100)%Z)].

(** [OpenWearablesClient.get_sleep_sessions] *)
Definition get_sleep_sessions (reply : http_reply json) (user_id : UUID)
    (start_date end_date : string) (limit : Z) (cursor : option string)
  : M json :=
  let params := date_range_params start_date end_date limit
                ++ optional_param "cursor" cursor in
  let! r := client_get ("/api/v1/users/" +:+ str_of_UUID user_id
                        +:+ "/events/sleep") params reply in
  do! raise_for_status r.1 in
  ret r.2.

(** [OpenWearablesClient.get_event_workouts] *)
Definition get_event_workouts (reply : http_reply json) (user_id : UUID)
    (start_date end_date : string) (workout_type : option string)
    (limit : Z) (cursor : option string) : M json :=
  let params := date_range_params start_date end_date limit
                ++ optional_param "type" workout_type
                ++ optional_param "cursor" cursor in
  let! r := client_get ("/api/v1/users/" +:+ str_of_UUID user_id
                        +:+ "/events/workouts") params reply in
  do! raise_for_status r.1 in
  ret r.2.

(** [{"data": [], "pagination": {"has_more": False}}] *)
Definition empty_page : json :=
  JObj [("data", JArr []); ("pagination", JObj [("has_more", JBool false)])].

(** The body shared by [get_activity_summary], [get_sleep_summary],
    [get_recovery_summary] and [get_body_summary], which differ in the last
    segment of the path only. *)
Definition get_summary (kind : string) (reply : http_reply json)
    (user_id : UUID) (start_date end_date : string) (limit : Z)
    (cursor : option string) : M json :=
  let params := date_range_params start_date end_date limit
                ++ optional_param "cursor" cursor in
  let! r := client_get ("/api/v1/users/" +:+ str_of_UUID user_id
                        +:+ "/summaries/" +:+ kind) params reply in
  if (r.1 =? 501)%N then ret empty_page
  else
    do! raise_for_status r.1 in
    ret r.2.

Definition get_activity_summary := get_summary "activity".
Definition get_sleep_summary := get_summary "sleep".
Definition get_recovery_summary := get_summary "recovery".
Definition get_body_summary := get_summary "body".

(** The results [sync_user_data] builds itself. *)
Definition sync_result (success : bool) (status message : string) : json :=
  JObj [("success", JBool success); ("status", JStr status);
        ("message", JStr message); ("synced_count", JNum 0)].

Definition already_synced : json :=
  sync_result true "success" "Data already synced - no new data to import".
Definition garmin_expired : json :=
  sync_result false "error" "Garmin connection expired - please reconnect".
Definition suunto_range : json :=
  sync_result false "error"
    "Suunto sync date range too large - please try again".

(** The [try] block of [sync_user_data] for a 400 response: [Some] result
    where it returns, [None] where it falls through (no marker found, or an
    exception swallowed by [except Exception: pass]). The body is [None]
    when it is not JSON. *)
Definition handle_sync_400 (body : option json) : option json :=
  match body with
  | Some (JObj error_data) =>
      let error_detail := default (JStr "") (assoc "detail" error_data) in
      match py_in "already exists" error_detail,
            py_in "UniqueViolation" error_detail,
            py_in "InvalidPullTokenException" error_detail,
            py_in "28 days" error_detail with
      | Ok a, Ok b, Ok c, Ok d =>
          if a || b then Some already_synced
          else if c then Some garmin_expired
          else if d then Some suunto_range
          else None
      | _, _, _, _ => None
      end
  | _ => None
  end.

(** The provider-specific query parameters of a sync. *)
Definition sync_params (clock : sync_clock) (provider_lower data_type : string)
  : list (string * string) :=
  [("data_type", data_type)]
  ++ (if String.eqb provider_lower "garmin" then
        [("summary_start_time", garmin_start clock);
         ("summary_end_time", garmin_end clock)]
      else if String.eqb provider_lower "suunto" then
        [("since", suunto_since clock)]
      else []).

(** [OpenWearablesClient.sync_user_data]. The POST carries its arguments
    in the query string; the event records them. [response.json()] of a body
    that is not JSON raises [JSONDecodeError], a [ValueError]. *)
Definition sync_user_data (clock : sync_clock)
    (reply : http_reply (option json)) (user_id : option UUID)
    (provider data_type : string) : M json :=
  let provider_lower := str_lower provider in
  let params := sync_params clock provider_lower data_type in
  let! _ := _get_headers in
  do! emit (HttpPost ("/api/v1/providers/" +:+ provider_lower +:+ "/users/"
                      +:+ str_of_link user_id +:+ "/sync") params) in
  match reply with
  | NetworkError => raise HTTPRequestError
  | Response status body =>
      match (if (status =? 400)%N then handle_sync_400 body else None) with
      | Some result => ret result
      | None =>
          do! raise_for_status status in
          match body with
          | Some j => ret j
          | None => raise ValueError
          end
      end
  end.

(** ** More of [app/services/wearables_service.py] *)

Record AuthorizationResponse := mkAuthorizationResponse {
  authorization_url : string;
  auth_provider : string;
}.

(** [WearablesService.get_authorization_url] *)
Definition service_get_authorization_url (env : ow_env)
    (reply : http_reply dict) (user : User) (provider : string)
    (redirect_uri : option string) : M AuthorizationResponse :=
  let! user :=
    match open_wearables_user_id user with
    | None => register_with_open_wearables env user
    | Some _ => ret user
    end in
  let! result := client_get_authorization_url reply (str_lower provider)
                   (open_wearables_user_id user) redirect_uri in
  ret (mkAuthorizationResponse
         (default "" (result !! "authorization_url")) provider).

(** ** [app/api/routes/v1/wearables.py] *)

(** [_get_user_or_404] *)
Definition _get_user_or_404 (w : world) (uid : UUID) : answer User :=
  match get_user_by_id (tbl w) uid with
  | Some user => Answer user
  | None => HTTPException 404 "User not found" None
  end.

(** The route [POST /register], given what [Depends(get_current_user)]
    returned. *)
Definition route_register (current_user : UserInfo) (env : ow_env)
    (w : world) : answer RegisterOpenWearablesResponse * world :=
  match _get_user_or_404 w (user_id current_user) with
  | HTTPException status detail cause =>
      (HTTPException status detail cause, w)
  | Answer user =>
      match register_user env user w with
      | (Ok response, w') => (Answer response, w')
      | (Raised e, w') =>
          (HTTPException 502 "Failed to register with Open Wearables: "
             (Some e), w')
      end
  end.

(** The route [GET /authorize/{provider}]. *)
Definition route_authorize (current_user : UserInfo) (env : ow_env)
    (reply : http_reply dict) (provider : string)
    (redirect_uri : option string) (w : world)
  : answer AuthorizationResponse * world :=
  match _get_user_or_404 w (user_id current_user) with
  | HTTPException status detail cause =>
      (HTTPException status detail cause, w)
  | Answer user =>
      match service_get_authorization_url env reply user provider
              redirect_uri w with
      | (Ok response, w') => (Answer response, w')
      | (Raised e, w') =>
          (HTTPException 502 "Failed to get authorization URL: " (Some e), w')
      end
  end.

(** ** Statements and invariants of the further properties *)

(** Code that leaves the table alone and runs no SQL statement. *)
Definition hush {A} (m : M A) : Prop :=
  ∀ w, tbl (m w).2 = tbl w ∧
       ∃ tr, trace (m w).2 = trace w ++ tr ∧ sql_events tr = [].


(** A caller that has run its UPDATE: it is about to reload, or has
    returned. *)
Definition wrote (t : task) : Prop :=
  match t_pc t with
  | AtRefresh _ _ | Finished (Ok _) => True
  | _ => False
  end.

Global Instance wrote_dec t : Decision (wrote t).
Proof. unfold wrote. destruct (t_pc t) as [| | | | |[]]; apply _. Defined.



(** The exception the lookup of [create_user] raises, if it fails. *)
Definition lookup_failure (env : ow_env) : option exn :=
  match find_reply env with
  | NetworkError => Some HTTPRequestError
  | Response status _ =>
      if is_success status then None else Some (HTTPStatusError status)
  end.

(** * Proofs *)

(** ** The monad and the table *)

Ltac unfold_m :=
  unfold bind, ret, raise, try_except, emit, get_tbl, put_tbl in *.

Lemma eqb_empty_false (s : string) : s ≠ "" → String.eqb s "" = false.
Proof. intros H. by apply String.eqb_neq. Qed.

Lemma get_user_by_id_Some t uid row :
  get_user_by_id t uid = Some row → id row = uid ∧ row ∈ t.
Proof.
  unfold get_user_by_id. intros H.
  apply head_Some_elem_of in H. by apply list_elem_of_filter in H.
Qed.

Lemma get_user_by_auth0_id_Some t a row :
  get_user_by_auth0_id t a = Some row → auth0_id row = a ∧ row ∈ t.
Proof.
  unfold get_user_by_auth0_id. intros H.
  apply head_Some_elem_of in H. by apply list_elem_of_filter in H.
Qed.

(** An UPDATE that matches no row leaves the table as it is. *)
Lemma apply_update_link_none uid ow t :
  rowcount_update_link uid t = 0 → apply_update_link uid ow t = t.
Proof.
  unfold rowcount_update_link, apply_update_link.
  induction t as [|r t IH]; [done|].
  rewrite filter_cons, fmap_cons.
  case_decide; simpl; [done|]. intros Hrc. by rewrite IH.
Qed.

(** ** The fast path *)

(** C5. A user whose [open_wearables_user_id] is already set: the
    coordinator returns the very same user, the table is untouched and the
    only event is the info log record, so no HTTP request is sent and no SQL
    statement runs; calling again gives the same user; and
    [WearablesService.register_user] answers with the existing id and
    [already_registered = True] without any event at all. *)
Theorem register_linked_user_is_fast_path env env' user ow w :
  open_wearables_user_id user = Some ow →
  let w' := World (tbl w)
                  (trace w ++ [Log INFO (MsgAlreadyRegistered (id user))]) in
  register_with_open_wearables env user w = (Ok user, w') ∧
  tbl w' = tbl w ∧
  http_events (trace w') = http_events (trace w) ∧
  sql_events (trace w') = sql_events (trace w) ∧
  register_with_open_wearables env' user w'
    = (Ok user,
       World (tbl w)
             (trace w' ++ [Log INFO (MsgAlreadyRegistered (id user))])) ∧
  register_user env user w = (Ok (mkRegisterResponse ow true), w).
Proof.
  intros Hlinked. unfold register_with_open_wearables, register_user.
  rewrite Hlinked. unfold_m. unfold http_events, sql_events. simpl.
  rewrite !filter_app. simpl. by rewrite !app_nil_r.
Qed.

(** ** Failures of the upstream call *)

Lemma find_user_keeps_tbl env external_id w r w' :
  find_user_by_external_id env external_id w = (r, w') → tbl w' = tbl w.
Proof.
  unfold find_user_by_external_id, _get_headers, _ensure_configured.
  unfold_m. intros H.
  repeat case_match; simplify_eq/=; done.
Qed.

Lemma post_user_keeps_tbl env external_id email_ w r w' :
  post_user env external_id email_ w = (r, w') → tbl w' = tbl w.
Proof.
  unfold post_user, _get_headers, _ensure_configured.
  unfold_m. intros H.
  repeat case_match; simplify_eq/=; done.
Qed.

Lemma create_user_keeps_tbl env external_id email_ w r w' :
  create_user env external_id email_ w = (r, w') → tbl w' = tbl w.
Proof.
  unfold create_user, bind. intros H.
  destruct (find_user_by_external_id _ _ _) as [[existing|e] w1] eqn:Hfind.
  - apply find_user_keeps_tbl in Hfind. rewrite <- Hfind.
    unfold after_find in H. unfold_m.
    repeat case_match; simplify_eq/=;
      try done; by eapply post_user_keeps_tbl.
  - simplify_eq. by eapply find_user_keeps_tbl.
Qed.

(** The client only ever raises the configuration error or an httpx
    error. *)
Lemma create_user_raises env external_id email_ w e w' :
  create_user env external_id email_ w = (Raised e, w') →
  e = OpenWearablesConfigurationError ∨ e = HTTPRequestError ∨
  ∃ status, e = HTTPStatusError status ∧ is_success status = false.
Proof.
  unfold create_user, after_find, find_user_by_external_id, post_user,
    _get_headers, _ensure_configured.
  unfold_m. intros H.
  repeat case_match; simplify_eq/=; eauto.
Qed.

(** C3. When the upstream create-or-find call fails, the coordinator
    raises that same failure (a network error, a non-success status, or the
    missing API key), after logging it; the [user] table is exactly what it
    was, and no SQL statement has run. *)
Theorem register_upstream_failure_mutates_nothing env user w e w1 :
  open_wearables_user_id user = None →
  create_user env (auth0_id user) (email user) w = (Raised e, w1) →
  let w' := World (tbl w)
              (trace w1 ++ [Log ERROR (MsgRegisterFailed (id user) e)]) in
  register_with_open_wearables env user w = (Raised e, w') ∧
  tbl w' = tbl w ∧
  sql_events (trace w') = sql_events (trace w) ∧
  (e = OpenWearablesConfigurationError ∨ e = HTTPRequestError ∨
   ∃ status, e = HTTPStatusError status ∧ is_success status = false).
Proof.
  intros Hnull Hfail. simpl.
  pose proof (create_user_keeps_tbl _ _ _ _ _ _ Hfail) as Htbl.
  pose proof (create_user_raises _ _ _ _ _ _ Hfail) as Hkind.
  split_and!; [| done | | done].
  - unfold register_with_open_wearables. rewrite Hnull.
    unfold try_except, bind at 1. rewrite Hfail.
    unfold log_and_reraise. unfold_m. by rewrite Htbl.
  - revert Hfail.
    unfold create_user, after_find, find_user_by_external_id, post_user,
      _get_headers, _ensure_configured, sql_events.
    unfold_m. intros Hfail.
    repeat case_match; simplify_eq/=;
      rewrite ?filter_app; simpl; by rewrite ?app_nil_r.
Qed.

(** ** Losing the race *)

Lemma ow_id_of_pure d w r w' : ow_id_of d w = (r, w') → w' = w.
Proof.
  unfold ow_id_of, UUID_. unfold_m. intros H.
  repeat case_match; by simplify_eq.
Qed.

Lemma rowcount_zero_linked uid t r :
  rowcount_update_link uid t = 0 → r ∈ t → id r = uid →
  ∃ v, open_wearables_user_id r = Some v.
Proof.
  unfold rowcount_update_link. intros Hrc Hin Hid.
  apply nil_length_inv in Hrc.
  destruct (open_wearables_user_id r) as [v|] eqn:Hlink; [by exists v|].
  exfalso. by eapply (filter_nil_not_elem_of _ _ r Hrc).
Qed.

(** C4. The caller's [user] object says "not registered", the upstream
    call gave an id [ow], and the conditional UPDATE matched no row although
    the row exists: nothing is raised, the table is unchanged, the info
    record "already registered by another request" is logged, and the user
    returned is the reloaded row, whose [open_wearables_user_id] is the one
    stored (not [ow]). *)
Theorem register_zero_rows_returns_stored_link env user w ow w1 row :
  open_wearables_user_id user = None →
  (let! result := create_user env (auth0_id user) (email user) in
   ow_id_of result) w = (Ok ow, w1) →
  update_fails env = false →
  rowcount_update_link (id user) (tbl w) = 0 →
  get_user_by_id (tbl w) (id user) = Some row →
  register_with_open_wearables env user w
    = (Ok row,
       World (tbl w)
         (trace w1 ++ [SqlUpdateLink (id user) ow 0;
                       Log INFO (MsgRegisteredByAnother (id user))])) ∧
  id row = id user ∧
  ∃ v, open_wearables_user_id row = Some v.
Proof.
  intros Hnull Hup Hdb Hrc Hrow.
  destruct (get_user_by_id_Some _ _ _ Hrow) as [Hid Hin].
  split_and!; [| done | by eapply rowcount_zero_linked].
  unfold register_with_open_wearables. rewrite Hnull.
  unfold bind at 1 in Hup.
  destruct (create_user _ _ _ _) as [[result|e] w0] eqn:Hcreate; [|done].
  pose proof (create_user_keeps_tbl _ _ _ _ _ _ Hcreate) as Htbl.
  pose proof (ow_id_of_pure _ _ _ _ Hup) as ->.
  unfold try_except, bind at 1. rewrite Hcreate.
  unfold bind at 1. rewrite Hup.
  unfold execute_update_link, log_rowcount, refresh. rewrite Hdb.
  unfold_m. simpl. rewrite Htbl, Hrc, (apply_update_link_none _ _ _ Hrc).
  simpl. rewrite Hrow. by rewrite <- app_assoc.
Qed.

(** ** The Identity Resolver *)

(** C7. An empty [auth0_id] or an empty [email]: the resolver raises
    [ValueError] and the world (table and trace) is exactly what it was. *)
Theorem get_or_create_user_rejects_empty cenv auth0_id_ email_ w :
  auth0_id_ = "" ∨ email_ = "" →
  get_or_create_user cenv auth0_id_ email_ w = (Raised ValueError, w).
Proof.
  unfold get_or_create_user.
  intros [-> | ->]; simpl; [done|].
  by rewrite orb_true_r.
Qed.

(** C8. The stored email equals the supplied one (the stored identity and
    email being non-empty, as on every row the resolver creates): the
    resolver returns the stored row itself and the world is exactly what it
    was, so no statement has run and no field of any row has changed. *)
Theorem get_or_create_user_same_email_no_write cenv auth0_id_ email_ w user :
  get_user_by_auth0_id (tbl w) auth0_id_ = Some user →
  email user = email_ →
  auth0_id user ≠ "" →
  email user ≠ "" →
  get_or_create_user cenv auth0_id_ email_ w = (Ok user, w).
Proof.
  intros Hfound Hemail Ha He.
  destruct (get_user_by_auth0_id_Some _ _ _ Hfound) as [<- _]. subst email_.
  unfold get_or_create_user.
  rewrite (eqb_empty_false _ Ha), (eqb_empty_false _ He). simpl.
  unfold_m. rewrite Hfound. by rewrite decide_False by auto.
Qed.

Lemma set_email_rows_by_id uid e n (t : list User) :
  filter (λ r, id r = uid)
    ((λ r, if decide (id r = uid) then set_email r e n else r) <$> t)
  = (λ r, set_email r e n) <$> filter (λ r, id r = uid) t.
Proof.
  induction t as [|r t IH]; [done|].
  rewrite fmap_cons, !filter_cons.
  destruct (decide (id r = uid)) as [Hr|Hr].
  - rewrite decide_True by done. by rewrite fmap_cons, IH.
  - by rewrite decide_False.
Qed.

Lemma set_email_rows_by_auth0 uid a e n (t : list User) user :
  head (filter (λ r, auth0_id r = a) t) = Some user →
  id user = uid →
  head (filter (λ r, auth0_id r = a)
    ((λ r, if decide (id r = uid) then set_email r e n else r) <$> t))
  = Some (set_email user e n).
Proof.
  intros Hhead Hid. induction t as [|r t IH]; [done|].
  rewrite fmap_cons, filter_cons. rewrite filter_cons in Hhead.
  destruct (decide (id r = uid)) as [Hu|Hu]; simpl;
    repeat case_decide; simplify_eq/=; auto.
Qed.

(** C6, amended. An existing User, a non-empty email that differs from
    the stored one and that no other row holds: the resolver returns a row
    with the new email and the id of the stored row, and that is what the
    table then holds under this id and under this identity. *)
Theorem get_or_create_user_updates_free_email cenv auth0_id_ email_ w user :
  get_user_by_auth0_id (tbl w) auth0_id_ = Some user →
  email user ≠ email_ →
  auth0_id_ ≠ "" →
  email_ ≠ "" →
  ¬ Exists (email_taken (id user) email_) (tbl w) →
  ∃ user' w',
    get_or_create_user cenv auth0_id_ email_ w = (Ok user', w') ∧
    email user' = email_ ∧
    id user' = id user ∧
    get_user_by_id (tbl w') (id user) = Some user' ∧
    get_user_by_auth0_id (tbl w') auth0_id_
      = Some (set_email user email_ (now cenv)) ∧
    trace w' = trace w ++ [SqlUpdateEmail (id user) email_].
Proof.
  intros Hfound Hdiff Ha He Hfree.
  destruct (get_user_by_auth0_id_Some _ _ _ Hfound) as [Hauth Hin].
  assert (∃ row, get_user_by_id (tbl w) (id user) = Some row) as [row Hrow].
  { unfold get_user_by_id.
    destruct (filter _ _) as [|row rest] eqn:Hf; [|by exists row].
    exfalso. by eapply (filter_nil_not_elem_of _ _ user Hf). }
  destruct (get_user_by_id_Some _ _ _ Hrow) as [Hid _].
  exists (set_email row email_ (now cenv)). eexists.
  split_and!; [| done | done | | |].
  - unfold get_or_create_user, update.
    rewrite (eqb_empty_false _ Ha), (eqb_empty_false _ He). simpl.
    unfold_m. rewrite Hfound. rewrite decide_True by done.
    rewrite Hrow. by rewrite decide_False by done.
  - simpl. unfold get_user_by_id in *.
    rewrite set_email_rows_by_id.
    destruct (filter _ (tbl w)); by simplify_eq/=.
  - simpl. by apply set_email_rows_by_auth0.
  - done.
Qed.

(** ** Create-or-find *)


(** ** Authentication survives a failed registration *)

Lemma apply_update_link_no_row uid ow t :
  get_user_by_id (apply_update_link uid ow t) uid = None →
  apply_update_link uid ow t = t.
Proof.
  unfold get_user_by_id, apply_update_link.
  induction t as [|r t IH]; [done|].
  rewrite fmap_cons, filter_cons. intros H.
  destruct (decide (unlinked uid r)) as [[Hr ?]|Hr]; simpl in *.
  - by rewrite decide_True in H.
  - case_decide; [done|]. by rewrite IH.
Qed.

(** A call of the coordinator that raises has not changed the table. *)
Lemma register_raised_keeps_tbl env user w e w' :
  register_with_open_wearables env user w = (Raised e, w') →
  tbl w' = tbl w.
Proof.
  unfold register_with_open_wearables.
  destruct (open_wearables_user_id user); [by unfold_m|].
  unfold try_except, bind at 1.
  destruct (create_user _ _ _ _) as [[result|e0] w0] eqn:Hcreate.
  - pose proof (create_user_keeps_tbl _ _ _ _ _ _ Hcreate) as Htbl.
    unfold bind at 1.
    destruct (ow_id_of result w0) as [[ow|e1] w1] eqn:Hid;
      pose proof (ow_id_of_pure _ _ _ _ Hid) as ->.
    + unfold execute_update_link, log_rowcount, refresh, log_and_reraise.
      unfold_m. intros H.
      repeat case_match; simplify_eq/=; try done.
      all: rewrite <- Htbl; by apply apply_update_link_no_row.
    + unfold log_and_reraise. unfold_m. intros H. by simplify_eq/=.
  - pose proof (create_user_keeps_tbl _ _ _ _ _ _ Hcreate) as Htbl.
    unfold log_and_reraise. unfold_m. intros H. by simplify_eq/=.
Qed.


(** ** The link is written once *)

Lemma link_history_refl r : link_history r r.
Proof. by left. Qed.

Lemma link_history_trans r1 r2 r3 :
  link_history r1 r2 → link_history r2 r3 → link_history r1 r3.
Proof.
  intros [->|[Hnull [ow ->]]] [->|[Hnull' [ow' ->]]];
    unfold link_history; eauto.
Qed.

Lemma apply_update_link_history uid ow t :
  Forall2 link_history t (apply_update_link uid ow t).
Proof.
  unfold apply_update_link. induction t as [|r t IH]; [constructor|].
  rewrite fmap_cons. constructor; [|done].
  case_decide as Hr; [|by left]. destruct Hr as [_ Hnull].
  right. eauto.
Qed.

Lemma Forall2_link_history_refl t : Forall2 link_history t t.
Proof. induction t; constructor; auto using link_history_refl. Qed.

Lemma Forall2_link_history_trans t1 t2 t3 :
  Forall2 link_history t1 t2 → Forall2 link_history t2 t3 →
  Forall2 link_history t1 t3.
Proof.
  intros H12. revert t3. induction H12; intros t3 H23; inv H23;
    constructor; eauto using link_history_trans.
Qed.

Lemma quiet_ret {A} (a : A) : quiet (ret a).
Proof. intros w. split; [done|]. exists []. by rewrite app_nil_r. Qed.

Lemma quiet_raise {A} e : quiet (raise (A:=A) e).
Proof. intros w. split; [done|]. exists []. by rewrite app_nil_r. Qed.

Lemma quiet_emit ev : quiet (emit ev).
Proof. intros w. split; [done|]. by exists [ev]. Qed.

Lemma quiet_get_tbl : quiet get_tbl.
Proof. intros w. split; [done|]. exists []. by rewrite app_nil_r. Qed.

Lemma quiet_bind {A B} (m : M A) (k : A → M B) :
  quiet m → (∀ a, quiet (k a)) → quiet (bind m k).
Proof.
  intros Hm Hk w. unfold bind. destruct (Hm w) as [Ht [tr Htr]].
  destruct (m w) as [[a|e] w1]; simpl in *; [|eauto].
  destruct (Hk a w1) as [Ht' [tr' Htr']].
  rewrite Ht', Ht, Htr', Htr, <- app_assoc. eauto.
Qed.

Lemma quiet_try_except {A} (m : M A) (h : exn → M A) :
  quiet m → (∀ e, quiet (h e)) → quiet (try_except m h).
Proof.
  intros Hm Hh w. unfold try_except. destruct (Hm w) as [Ht [tr Htr]].
  destruct (m w) as [[a|e] w1]; simpl in *; [eauto|].
  destruct (Hh e w1) as [Ht' [tr' Htr']].
  rewrite Ht', Ht, Htr', Htr, <- app_assoc. eauto.
Qed.

Lemma quiet_get_headers : quiet _get_headers.
Proof.
  unfold _get_headers, _ensure_configured.
  apply quiet_bind; [|intros; apply quiet_ret].
  destruct is_configured; [apply quiet_ret | apply quiet_raise].
Qed.

Lemma quiet_find env external_id :
  quiet (find_user_by_external_id env external_id).
Proof.
  unfold find_user_by_external_id.
  apply quiet_bind; [apply quiet_get_headers|]. intros _.
  apply quiet_bind; [apply quiet_emit|]. intros _.
  repeat case_match; auto using @quiet_ret, @quiet_raise.
Qed.

Lemma quiet_post env external_id email_ :
  quiet (post_user env external_id email_).
Proof.
  unfold post_user.
  apply quiet_bind; [apply quiet_get_headers|]. intros _.
  apply quiet_bind; [apply quiet_emit|]. intros _.
  repeat case_match; auto using @quiet_ret, @quiet_raise.
Qed.

Lemma quiet_ow_id_of d : quiet (ow_id_of d).
Proof.
  unfold ow_id_of, UUID_.
  repeat case_match; auto using @quiet_ret, @quiet_raise.
Qed.

Lemma quiet_log_rowcount user ow rc : quiet (log_rowcount user ow rc).
Proof. unfold log_rowcount. case_decide; apply quiet_emit. Qed.

Lemma quiet_refresh user : quiet (refresh user).
Proof.
  unfold refresh. apply quiet_bind; [apply quiet_get_tbl|]. intros t.
  case_match; auto using @quiet_ret, @quiet_raise.
Qed.

Lemma quiet_log_and_reraise {A} user e :
  quiet (log_and_reraise (A:=A) user e).
Proof.
  unfold log_and_reraise.
  apply quiet_bind; [apply quiet_emit|]. intros _. apply quiet_raise.
Qed.

Lemma settle_quiet user (m : M pc) w :
  quiet m →
  tbl (settle user m w).2 = tbl w ∧
  ∃ tr, trace (settle user m w).2 = trace w ++ tr.
Proof.
  intros Hm. unfold settle. destruct (Hm w) as [Ht [tr Htr]].
  destruct (m w) as [[p|e] w1]; cbn [fst snd] in *; [eauto|].
  destruct (quiet_log_and_reraise (A:=User) user e w1) as [Ht' [tr' Htr']].
  rewrite Ht', Ht, Htr', Htr, <- app_assoc. eauto.
Qed.

(** One step of one caller either leaves the table alone or is the
    conditional UPDATE; the trace only grows. *)
Lemma task_step_world t w :
  (tbl (task_step t w).2 = tbl w ∨
   ∃ ow, tbl (task_step t w).2 = apply_update_link (id (t_user t)) ow (tbl w)) ∧
  ∃ tr, trace (task_step t w).2 = trace w ++ tr.
Proof.
  unfold task_step.
  destruct (t_pc t); simpl.
  - destruct (open_wearables_user_id _); simpl; split; eauto.
    exists []. by rewrite app_nil_r.
  - match goal with |- context [settle ?u ?m w] =>
      destruct (settle_quiet u m w) as [Ht Htr] end.
    { apply quiet_bind; [apply quiet_find|]. intros [d|]; [|apply quiet_ret].
      case_match; [|apply quiet_ret].
      apply quiet_bind; [apply quiet_emit|]. intros _.
      apply quiet_bind; [apply quiet_ow_id_of|]. intros. apply quiet_ret. }
    destruct (settle _ _ _). simpl in *. auto.
  - match goal with |- context [settle ?u ?m w] =>
      destruct (settle_quiet u m w) as [Ht Htr] end.
    { apply quiet_bind; [apply quiet_post|]. intros d.
      apply quiet_bind; [apply quiet_ow_id_of|]. intros. apply quiet_ret. }
    destruct (settle _ _ _). simpl in *. auto.
  - unfold settle, execute_update_link, log_and_reraise. unfold_m.
    destruct (update_fails _); simpl; split; eauto.
  - match goal with |- context [settle ?u ?m w] =>
      destruct (settle_quiet u m w) as [Ht Htr] end.
    { apply quiet_bind; [apply quiet_log_rowcount|]. intros _.
      apply quiet_bind; [apply quiet_refresh|]. intros. apply quiet_ret. }
    destruct (settle _ _ _). simpl in *. auto.
  - split; [by left|]. exists []. by rewrite app_nil_r.
Qed.

Lemma sched_step_history s i :
  Forall2 link_history (tbl (sys_world s)) (tbl (sys_world (sched_step s i))).
Proof.
  unfold sched_step.
  destruct (sys_tasks s !! i) as [t|]; [|apply Forall2_link_history_refl].
  destruct (task_step_world t (sys_world s)) as [[Heq|[ow Heq]] _];
    destruct (task_step t (sys_world s)) as [t' w']; simpl in *;
    rewrite Heq;
    auto using Forall2_link_history_refl, apply_update_link_history.
Qed.

Lemma run_history sched s :
  Forall2 link_history (tbl (sys_world s)) (tbl (sys_world (run sched s))).
Proof.
  unfold run. revert s.
  induction sched as [|i sched IH]; intros s; simpl.
  - apply Forall2_link_history_refl.
  - eapply Forall2_link_history_trans; [apply sched_step_history | apply IH].
Qed.

Lemma register_history env user w :
  Forall2 link_history (tbl w)
    (tbl (register_with_open_wearables env user w).2).
Proof.
  unfold register_with_open_wearables.
  destruct (open_wearables_user_id user);
    [unfold_m; apply Forall2_link_history_refl|].
  unfold try_except, bind at 1.
  destruct (create_user _ _ _ _) as [[result|e0] w0] eqn:Hcreate;
    pose proof (create_user_keeps_tbl _ _ _ _ _ _ Hcreate) as Htbl.
  - unfold bind at 1.
    destruct (ow_id_of result w0) as [[ow|e1] w1] eqn:Hid;
      pose proof (ow_id_of_pure _ _ _ _ Hid) as ->.
    + unfold execute_update_link, log_rowcount, refresh, log_and_reraise.
      unfold_m.
      repeat case_match; simplify_eq/=; rewrite <- ?Htbl;
        auto using Forall2_link_history_refl, apply_update_link_history.
    + unfold log_and_reraise. unfold_m. simpl. rewrite Htbl.
      apply Forall2_link_history_refl.
  - unfold log_and_reraise. unfold_m. simpl. rewrite Htbl.
    apply Forall2_link_history_refl.
Qed.

(** C2. Whatever callers are in flight, whatever the outside answers and
    in whatever order they step, each row of the table afterwards is the
    row it was, or the row it was with its null link set: a link that is set
    is never overwritten or cleared, and no other column is written. The
    same holds of one whole call. *)
Theorem link_is_written_once sched s env user w :
  Forall2 link_history (tbl (sys_world s)) (tbl (sys_world (run sched s))) ∧
  Forall2 link_history (tbl w)
    (tbl (register_with_open_wearables env user w).2).
Proof. split; [apply run_history | apply register_history]. Qed.

(** ** The race of N callers for one row *)

Lemma rowcounts_app uid tr1 tr2 :
  rowcounts uid (tr1 ++ tr2) = rowcounts uid tr1 ++ rowcounts uid tr2.
Proof. apply omap_app. Qed.

Lemma rowcount_links uid t :
  rowcount_update_link uid t
  = length (filter (λ o, o = None) (links uid t)).
Proof.
  unfold rowcount_update_link, links, unlinked.
  induction t as [|r t IH]; [done|].
  rewrite !filter_cons.
  destruct (decide (id r = uid)) as [Hr|Hr].
  - rewrite fmap_cons, filter_cons.
    destruct (decide (open_wearables_user_id r = None)) as [Hn|Hn];
      destruct (decide (id r = uid ∧ open_wearables_user_id r = None))
        as [Hb|Hb]; simpl; rewrite ?IH; try done.
    + by destruct Hb.
    + by destruct Hb.
  - destruct (decide (id r = uid ∧ open_wearables_user_id r = None))
      as [[Hb _]|Hb]; done.
Qed.

Lemma links_apply_update uid ow t :
  links uid (apply_update_link uid ow t)
  = (λ o, match o with None => Some ow | Some v => Some v end)
      <$> links uid t.
Proof.
  unfold links, apply_update_link, unlinked.
  induction t as [|r t IH]; [done|].
  rewrite fmap_cons, !filter_cons.
  destruct (decide (id r = uid ∧ open_wearables_user_id r = None))
    as [[Hr Hn]|Hn]; simpl.
  - rewrite !decide_True by done. rewrite !fmap_cons, IH. simpl.
    by rewrite Hn.
  - destruct (decide (id r = uid)) as [Hr|Hr]; [|done].
    rewrite !fmap_cons, IH.
    destruct (open_wearables_user_id r) eqn:Hl; [done|]. by destruct Hn.
Qed.

Lemma links_get uid t l :
  links uid t = [l] →
  ∃ row, get_user_by_id t uid = Some row ∧ open_wearables_user_id row = l.
Proof.
  unfold links, get_user_by_id.
  destruct (filter _ t) as [|row [|??]]; intros H; simplify_eq/=. eauto.
Qed.

Lemma length_filter_insert {A} (P : A → Prop) `{!∀ x, Decision (P x)}
    (l : list A) i x y :
  l !! i = Some x →
  length (filter P (<[i:=y]> l)) + (if decide (P x) then 1 else 0)
  = length (filter P l) + (if decide (P y) then 1 else 0).
Proof.
  revert i. induction l as [|a l IH]; intros [|i] Hi; simplify_eq/=.
  - rewrite !filter_cons. repeat case_decide; simpl; lia.
  - specialize (IH _ Hi). rewrite !filter_cons.
    repeat case_decide; simpl in *; lia.
Qed.

(** Reading the answers off the environment agrees with running the
    client. *)
Lemma find_user_run env external_id w :
  find_user_by_external_id env external_id w
  = match find_answer env with
    | Some existing =>
        (Ok existing,
         World (tbl w) (trace w ++ [HttpGet "/api/v1/users"
            [("external_user_id", external_id); ("limit", "1")]]))
    | None => find_user_by_external_id env external_id w
    end.
Proof.
  unfold find_answer, find_user_by_external_id, _get_headers,
    _ensure_configured.
  unfold_m. repeat case_match; by simplify_eq/=.
Qed.

Lemma post_user_run env external_id email_ w :
  post_user env external_id email_ w
  = match post_answer env with
    | Some body =>
        (Ok body,
         World (tbl w) (trace w ++ [HttpPost "/api/v1/users"
            [("external_user_id", external_id); ("email", email_)]]))
    | None => post_user env external_id email_ w
    end.
Proof.
  unfold post_answer, post_user, _get_headers, _ensure_configured.
  unfold_m. repeat case_match; by simplify_eq/=.
Qed.

Lemma ow_id_of_run d w ow :
  parse_id d = Some ow → ow_id_of d w = (Ok ow, w).
Proof.
  unfold parse_id, ow_id_of, UUID_. unfold_m.
  intros H. repeat case_match; by simplify_eq.
Qed.

Lemma ow_id_of_Ok d w ow w' :
  ow_id_of d w = (Ok ow, w') → parse_id d = Some ow.
Proof.
  unfold parse_id, ow_id_of, UUID_. unfold_m.
  intros H. repeat case_match; by simplify_eq.
Qed.

Lemma upstream_answers_gives env user ow :
  upstream_answers env user ow → upstream_gives env ow.
Proof.
  intros H. destruct (H (World [] [])) as [w' Hrun]. clear H.
  revert Hrun.
  unfold upstream_gives, post_gives, find_answer, post_answer, parse_id.
  unfold create_user, after_find, find_user_by_external_id, post_user,
    _get_headers, _ensure_configured, ow_id_of, UUID_.
  unfold_m. intros Hrun.
  destruct is_configured; [|done]. simpl in *.
  destruct (find_reply env) as [|status items]; [done|].
  destruct (is_success status); [|done].
  eexists. split; [done|].
  destruct (head items) as [d|]; simpl in *.
  - destruct (bool_decide (d = ∅)); simpl in *.
    + destruct (create_reply env) as [|status' body]; [done|].
      destruct (is_success status'); [|done].
      eexists. split; [done|]. simpl in *.
      repeat case_match; by simplify_eq/=.
    + repeat case_match; by simplify_eq/=.
  - destruct (create_reply env) as [|status' body]; [done|].
    destruct (is_success status'); [|done].
    eexists. split; [done|]. simpl in *.
    repeat case_match; by simplify_eq/=.
Qed.

(** What each step does to a caller that satisfies its invariant. *)

Lemma step_at_entry user env w :
  open_wearables_user_id user = None →
  task_step (Task user env AtEntry) w = (Task user env AtFind, w).
Proof. intros Hnull. unfold task_step. simpl. by rewrite Hnull. Qed.

Lemma step_at_find user env w ow :
  upstream_gives env ow →
  ∃ p tr,
    task_step (Task user env AtFind) w
      = (Task user env p, World (tbl w) (trace w ++ tr)) ∧
    (∀ uid, rowcounts uid tr = []) ∧
    (p = AtUpdate ow ∨ (p = AtCreate ∧ post_gives env ow)).
Proof.
  intros (existing & Hfind & Hgives).
  unfold task_step, settle. simpl. unfold bind at 1.
  rewrite find_user_run, Hfind.
  destruct existing as [d|]; [destruct (dict_truthy (Some d)) eqn:Ht|].
  - unfold bind at 1. unfold emit at 1. unfold bind at 1.
    rewrite (ow_id_of_run _ _ _ Hgives). unfold ret. simpl.
    rewrite <- app_assoc. eexists _, _. split_and!; [done| |by left].
    done.
  - unfold ret. eexists _, _. split_and!; [done| |by right]. done.
  - unfold ret. eexists _, _. split_and!; [done| |by right]. done.
Qed.

Lemma step_at_create user env w ow :
  post_gives env ow →
  ∃ tr,
    task_step (Task user env AtCreate) w
      = (Task user env (AtUpdate ow), World (tbl w) (trace w ++ tr)) ∧
    (∀ uid, rowcounts uid tr = []).
Proof.
  intros (body & Hpost & Hid).
  unfold task_step, settle. simpl. unfold bind at 1.
  rewrite post_user_run, Hpost. unfold bind at 1.
  rewrite (ow_id_of_run _ _ _ Hid). unfold ret.
  eexists. split; [done|]. done.
Qed.

Lemma step_at_update user env w ow :
  update_fails env = false →
  let rc := rowcount_update_link (id user) (tbl w) in
  task_step (Task user env (AtUpdate ow)) w
  = (Task user env (AtRefresh ow rc),
     World (apply_update_link (id user) ow (tbl w))
           (trace w ++ [SqlUpdateLink (id user) ow rc])).
Proof.
  intros Hdb. unfold task_step, settle, execute_update_link. simpl.
  rewrite Hdb. by unfold_m.
Qed.

Lemma step_at_refresh user env w ow rc row :
  get_user_by_id (tbl w) (id user) = Some row →
  ∃ m,
    task_step (Task user env (AtRefresh ow rc)) w
    = (Task user env (Finished (Ok row)),
       World (tbl w) (trace w ++ [Log INFO m])).
Proof.
  intros Hrow. unfold task_step, settle, log_rowcount, refresh. simpl.
  unfold_m. case_decide; simpl; rewrite Hrow; eauto.
Qed.

Lemma task_inv_relink uid l l' t :
  (∀ v, l = Some v → l' = Some v) →
  task_inv uid l t → task_inv uid l' t.
Proof.
  intros Hl (Hid & Hnull & Hdb & Hpc). split_and!; [done..|].
  destruct (t_pc t); [done..|].
  destruct Hpc as (u & v & -> & Hu & ->).
  exists u, v. split_and!; [done..|]. by apply Hl.
Qed.

(** The invariant holds at every step of every schedule. *)
Lemma race_inv_step uid rc0 s i :
  race_inv uid rc0 s → race_inv uid rc0 (sched_step s i).
Proof.
  intros (l & Hlinks & Hall & Hrcs & Hnone & Hsome). unfold sched_step.
  destruct (sys_tasks s !! i) as [t|] eqn:Hi; [|by exists l].
  pose proof (Forall_lookup_1 _ _ _ _ Hall Hi) as (Hid & Hnull & Hdb & Hpc).
  pose proof (length_filter_insert past_update (sys_tasks s) i t) as Hlen.
  specialize (Hlen (task_step t (sys_world s)).1 Hi).
  destruct s as [w ts]. destruct t as [user env p]. simpl in *.
  unfold race_inv.
  destruct p as [| | |ow|ow rc|r].
  - (* the fast-path check *)
    rewrite (step_at_entry _ _ _ Hnull) in Hlen |- *. simpl in *.
    rewrite !Nat.add_0_r in Hlen. rewrite Hlen.
    exists l. split_and!; [done| |done..].
    apply Forall_insert; [done|]. by split_and!.
  - (* the GET *)
    destruct Hpc as [ow Hgives].
    destruct (step_at_find user env w ow Hgives) as (p & tr & Hstep & Htr & Hp).
    rewrite Hstep in Hlen |- *. simpl in *.
    assert (length (filter past_update (<[i:=Task user env p]> ts))
            = length (filter past_update ts)) as ->.
    { destruct Hp as [->|[-> _]]; simpl in Hlen; lia. }
    exists l. split_and!; [done| | |done..].
    + apply Forall_insert; [done|]. split_and!; [done..|].
      destruct Hp as [->|[-> ?]]; simpl; eauto.
    + by rewrite rowcounts_app, Htr, app_nil_r.
  - (* the POST *)
    destruct Hpc as [ow Hgives].
    destruct (step_at_create user env w ow Hgives) as (tr & Hstep & Htr).
    rewrite Hstep in Hlen |- *. simpl in *.
    rewrite !Nat.add_0_r in Hlen. rewrite Hlen.
    exists l. split_and!; [done| | |done..].
    + apply Forall_insert; [done|]. by split_and!.
    + by rewrite rowcounts_app, Htr, app_nil_r.
  - (* the conditional UPDATE *)
    rewrite (step_at_update _ _ _ _ Hdb) in Hlen |- *. simpl in *.
    rewrite Nat.add_0_r in Hlen. rewrite Hid in *.
    rewrite rowcounts_app. simpl. rewrite decide_True by done.
    rewrite rowcount_links, Hlinks in Hlen |- *.
    rewrite links_apply_update, Hlinks.
    destruct l as [v|]; simpl in *.
    + (* the row is linked already: the UPDATE matches nothing *)
      exists (Some v). specialize (Hsome ltac:(done)).
      split_and!; [done| | |done|intros _; lia].
      * apply Forall_insert; [done|]. by split_and!.
      * rewrite Hrcs, <- app_assoc. f_equal. simpl. f_equal.
        rewrite Hlen.
        replace (length (filter past_update ts) + 1 - 1)
          with (S (length (filter past_update ts) - 1)) by lia.
        by rewrite replicate_S_end.
    + (* the row is null: this caller wins *)
      exists (Some ow). specialize (Hnone eq_refl).
      split_and!; [done| | |done|intros _; lia].
      * apply Forall_insert; [|by split_and!].
        eapply Forall_impl; [done|]. intros t0.
        by apply task_inv_relink.
      * rewrite Hrcs, app_nil_r. f_equal. rewrite Hlen, Hnone. done.
  - (* the reload *)
    destruct (links_get _ _ _ Hlinks) as (row & Hrow & Hrowl).
    rewrite <- Hid in Hrow.
    destruct (step_at_refresh user env w ow rc row Hrow) as (m & Hstep).
    rewrite Hstep in Hlen |- *. simpl in *.
    assert (length (filter past_update
                      (<[i:=Task user env (Finished (Ok row))]> ts))
            = length (filter past_update ts)) as -> by lia.
    assert (is_Some l) as [v ->].
    { destruct l; [done|]. specialize (Hnone eq_refl).
      assert (Task user env (AtRefresh ow rc) ∈ filter past_update ts) as Hin.
      { apply list_elem_of_filter. split; [done|].
        by eapply list_elem_of_lookup_2. }
      destruct (filter past_update ts);
        [by apply not_elem_of_nil in Hin|done]. }
    exists (Some v). split_and!; [done| | |done..].
    + apply Forall_insert; [done|]. split_and!; [done..|]. simpl. eauto.
    + by rewrite rowcounts_app, app_nil_r.
  - (* returned or raised already *)
    unfold task_step. simpl. rewrite list_insert_id by done. by exists l.
Qed.

Lemma run_inv uid rc0 sched s :
  race_inv uid rc0 s → race_inv uid rc0 (run sched s).
Proof.
  unfold run. revert s.
  induction sched as [|i sched IH]; intros s Hs; simpl; [done|].
  by apply IH, race_inv_step.
Qed.

Lemma sched_step_length s i :
  length (sys_tasks (sched_step s i)) = length (sys_tasks s).
Proof.
  unfold sched_step. destruct (sys_tasks s !! i); [|done].
  destruct (task_step _ _). simpl. apply length_insert.
Qed.

Lemma run_length sched s :
  length (sys_tasks (run sched s)) = length (sys_tasks s).
Proof.
  unfold run. revert s.
  induction sched as [|i sched IH]; intros s; simpl; [done|].
  by rewrite IH, sched_step_length.
Qed.

(** Every step brings a caller closer to its end. *)
Lemma task_step_progress t w :
  (steps_left (t_pc (task_step t w).1) ≤ steps_left (t_pc t) - 1)%nat.
Proof.
  unfold task_step, settle. destruct (t_pc t); simpl.
  - destruct (open_wearables_user_id _); simpl; lia.
  - unfold bind at 1.
    destruct (find_user_by_external_id _ _ _) as [[[d|]|e] w1]; simpl;
      [|lia..].
    destruct (negb _); [|simpl; lia].
    unfold ow_id_of, UUID_. unfold_m.
    repeat case_match; simplify_eq/=; lia.
  - unfold bind at 1. destruct (post_user _ _ _ _) as [[d|e] w1]; [|simpl; lia].
    unfold ow_id_of, UUID_. unfold_m.
    repeat case_match; simplify_eq/=; lia.
  - unfold execute_update_link. unfold_m.
    destruct (update_fails _); simpl; lia.
  - unfold log_rowcount, refresh. unfold_m.
    repeat case_match; simplify_eq/=; lia.
  - lia.
Qed.

Lemma sched_step_progress s i j t :
  sys_tasks s !! j = Some t →
  ∃ t', sys_tasks (sched_step s i) !! j = Some t' ∧
    (steps_left (t_pc t')
     ≤ steps_left (t_pc t) - (if decide (i = j) then 1 else 0))%nat.
Proof.
  intros Hj. unfold sched_step.
  destruct (sys_tasks s !! i) as [ti|] eqn:Hi.
  - pose proof (task_step_progress ti (sys_world s)) as Hprog.
    destruct (task_step ti (sys_world s)) as [ti' w']. simpl in *.
    destruct (decide (i = j)) as [->|Hne].
    + simplify_eq. exists ti'. split; [|done].
      apply list_lookup_insert_eq. by eapply lookup_lt_Some.
    + exists t. rewrite list_lookup_insert_ne by done. split; [done|lia].
  - exists t. split; [done|].
    case_decide; [by simplify_eq|lia].
Qed.

Lemma run_progress sched s j t :
  sys_tasks s !! j = Some t →
  ∃ t', sys_tasks (run sched s) !! j = Some t' ∧
    (steps_left (t_pc t')
     ≤ steps_left (t_pc t) - length (filter (λ k, k = j) sched))%nat.
Proof.
  unfold run. revert s t.
  induction sched as [|i sched IH]; intros s t Hj; simpl.
  - exists t. split; [done|lia].
  - destruct (sched_step_progress s i j t Hj) as (t1 & Hj1 & Hle1).
    destruct (IH _ _ Hj1) as (t2 & Hj2 & Hle2).
    exists t2. split; [done|].
    rewrite filter_cons. case_decide; simpl in *; lia.
Qed.

(** A schedule that lets each caller step five times lets each caller
    return or raise. *)
Lemma fair_schedule_finishes sched calls w :
  gives_each sched (length calls) 5 →
  Forall (λ t, finished t) (sys_tasks (run sched (System w (spawn calls)))).
Proof.
  intros Hfair. apply Forall_lookup. intros j t' Hj.
  assert (j < length calls)%nat as Hlt.
  { apply lookup_lt_Some in Hj. rewrite run_length in Hj. simpl in Hj.
    unfold spawn in Hj. by rewrite length_fmap in Hj. }
  destruct (lookup_lt_is_Some_2 (spawn calls) j) as [t Ht].
  { unfold spawn. by rewrite length_fmap. }
  destruct (run_progress sched (System w (spawn calls)) j t Ht)
    as (t2 & Hj2 & Hle).
  rewrite Hj in Hj2. simplify_eq.
  specialize (Hfair j Hlt).
  assert (steps_left (t_pc t) ≤ 5)%nat by (destruct (t_pc t); simpl; lia).
  unfold finished. destruct (t_pc t2); simpl in *; first [lia | done].
Qed.

(** The outcome of the race once every caller has finished. *)
Lemma race_outcome uid rc0 s :
  race_inv uid rc0 s →
  (1 ≤ length (sys_tasks s))%nat →
  Forall (λ t, finished t) (sys_tasks s) →
  ∃ v,
    links uid (tbl (sys_world s)) = [Some v] ∧
    Forall (λ t, ∃ u, t_pc t = Finished (Ok u) ∧
                      open_wearables_user_id u = Some v) (sys_tasks s) ∧
    rowcounts uid (trace (sys_world s))
      = rc0 ++ 1 :: replicate (length (sys_tasks s) - 1) 0.
Proof.
  intros (l & Hlinks & Hall & Hrcs & Hnone & Hsome) Hlen Hfin.
  assert (filter past_update (sys_tasks s) = sys_tasks s) as Hpast.
  { clear -Hfin. induction Hfin as [|t ts Ht _ IH]; [done|].
    rewrite filter_cons, IH. rewrite decide_True; [done|].
    unfold finished, past_update in *. by destruct (t_pc t). }
  rewrite Hpast in *.
  destruct l as [v|]; [|specialize (Hnone eq_refl); lia].
  exists v. split_and!; [done| |done].
  apply Forall_forall. intros t Hin.
  pose proof (proj1 (Forall_forall _ _) Hall t Hin) as (_ & _ & _ & Hpc).
  pose proof (proj1 (Forall_forall _ _) Hfin t Hin) as Ht.
  unfold finished in Ht. destruct (t_pc t); try done.
  destruct Hpc as (u & v' & -> & Hu & ?). simplify_eq. eauto.
Qed.

(** C1. A row with a null link and N callers (any N >= 1, so any
    N >= 2), each holding a [user] object of that row that says "not
    registered", each answered by the upstream platform with a well-formed
    id, the datastore running each UPDATE. Under every schedule that lets
    each caller take its five steps, in any interleaving: every caller
    returns; the conditional updates have rowcounts 1, 0, ..., 0 (the first
    to run wins, the other N-1 match no row); and all callers return a user
    with the same [open_wearables_user_id], the one in the table. *)
Theorem concurrent_registration_single_winner calls sched uid w :
  (1 ≤ length calls)%nat →
  links uid (tbl w) = [None] →
  Forall (λ c, id c.1 = uid ∧ open_wearables_user_id c.1 = None ∧
               update_fails c.2 = false ∧
               ∃ ow, upstream_answers c.2 c.1 ow) calls →
  gives_each sched (length calls) 5 →
  let s' := run sched (System w (spawn calls)) in
  ∃ v,
    links uid (tbl (sys_world s')) = [Some v] ∧
    length (sys_tasks s') = length calls ∧
    Forall (λ t, ∃ u, t_pc t = Finished (Ok u) ∧
                      open_wearables_user_id u = Some v) (sys_tasks s') ∧
    rowcounts uid (trace (sys_world s'))
      = rowcounts uid (trace w) ++ 1 :: replicate (length calls - 1) 0.
Proof.
  intros HN Hrow Hcalls Hfair s'.
  assert (length (sys_tasks s') = length calls) as Hlen.
  { unfold s'. rewrite run_length. simpl. unfold spawn.
    by rewrite length_fmap. }
  assert (race_inv uid (rowcounts uid (trace w)) s') as Hinv.
  { apply run_inv. exists None. simpl.
    assert (filter past_update (spawn calls) = []) as ->.
    { unfold spawn. clear. induction calls as [|c calls IH]; [done|].
      rewrite fmap_cons, filter_cons. by rewrite decide_False by auto. }
    split_and!; [done| |by rewrite app_nil_r|done|done].
    unfold spawn. apply Forall_fmap. eapply Forall_impl; [done|].
    intros [user env] (Hid & Hnull & Hdb & ow & Hup). simpl in *.
    split_and!; [done..|]. exists ow. by eapply upstream_answers_gives. }
  destruct (race_outcome _ _ _ Hinv) as (v & Hl & Hts & Hrcs).
  { lia. }
  { by apply fair_schedule_finishes. }
  exists v. by rewrite Hlen in Hrcs.
Qed.

(** ** The machine and the function agree *)

Lemma run_single n t w :
  run (replicate n 0%nat) (System w [t])
  = System (run_task n t w).2 [(run_task n t w).1].
Proof.
  unfold run. revert t w. induction n as [|n IH]; intros t w; [done|].
  simpl. unfold sched_step at 2. simpl.
  destruct (task_step t w) as [t' w']. simpl. apply IH.
Qed.


Lemma run_task_S n t w :
  run_task (S n) t w = run_task n (task_step t w).1 (task_step t w).2.
Proof. simpl. by destruct (task_step t w). Qed.

Arguments run_task : simpl never.

Lemma run_task_finished n user env r w :
  run_task n (Task user env (Finished r)) w
  = (Task user env (Finished r), w).
Proof. induction n as [|n IH]; [done|]. by rewrite run_task_S. Qed.

Ltac unfold_step :=
  unfold task_step, settle, try_except, bind, ret;
  cbn [fst snd t_pc t_user t_env].

Lemma log_and_reraise_run {A} user e w :
  log_and_reraise (A:=A) user e w
  = (Raised e,
     World (tbl w) (trace w ++ [Log ERROR (MsgRegisterFailed (id user) e)])).
Proof. done. Qed.

Lemma run_task_from_update n user env ow w r w' :
  try_except
    (let! rc := execute_update_link env (id user) ow in
     do! log_rowcount user ow rc in
     refresh user) (log_and_reraise user) w = (r, w') →
  run_task (S (S n)) (Task user env (AtUpdate ow)) w
  = (Task user env (Finished r), w').
Proof.
  rewrite !run_task_S. unfold_step.
  destruct (execute_update_link env (id user) ow w) as [[rc|e] w1];
    cbn [fst snd t_pc t_user t_env].
  - destruct (log_rowcount user ow rc w1) as [[[]|e] w2];
      cbn [fst snd t_pc t_user t_env].
    + destruct (refresh user w2) as [[row|e] w3];
        cbn [fst snd t_pc t_user t_env];
        rewrite ?log_and_reraise_run; intros ?; simplify_eq;
        by rewrite run_task_finished.
    + rewrite ?log_and_reraise_run; intros ?; simplify_eq.
      by rewrite run_task_finished.
  - rewrite ?log_and_reraise_run; intros ?; simplify_eq.
    by rewrite run_task_finished.
Qed.

Lemma run_task_from_create n user env w r w' :
  try_except
    (let! result := post_user env (auth0_id user) (email user) in
     let! ow := ow_id_of result in
     let! rc := execute_update_link env (id user) ow in
     do! log_rowcount user ow rc in
     refresh user) (log_and_reraise user) w = (r, w') →
  run_task (S (S (S n))) (Task user env AtCreate) w
  = (Task user env (Finished r), w').
Proof.
  rewrite run_task_S. unfold try_except at 1. unfold bind at 1 2.
  unfold task_step at 1 2, settle. cbn [fst snd t_pc t_user t_env].
  unfold bind at 3 4 5 6.
  destruct (post_user _ _ _ w) as [[result|e] w1];
    cbn [fst snd t_pc t_user t_env].
  - destruct (ow_id_of result w1) as [[ow|e] w2] eqn:Hid;
      cbn [fst snd t_pc t_user t_env].
    + unfold ret. cbn [fst snd]. intros Hrest.
      apply run_task_from_update. unfold try_except.
      by destruct (bind _ _ w2) as [[]].
    + rewrite ?log_and_reraise_run; intros ?; simplify_eq.
      by rewrite run_task_finished.
  - rewrite ?log_and_reraise_run; intros ?; simplify_eq.
    by rewrite run_task_finished.
Qed.

Lemma bind_run {A B} (m : M A) (k : A → M B) w :
  bind m k w = match m w with
               | (Ok a, w') => k a w'
               | (Raised e, w') => (Raised e, w')
               end.
Proof. done. Qed.

Lemma try_bind {A B} (m : M A) (k : A → M B) h w :
  try_except (bind m k) h w
  = match m w with
    | (Ok a, w') => try_except (k a) h w'
    | (Raised e, w') => h e w'
    end.
Proof. unfold try_except, bind. by destruct (m w) as [[a|e] w1]. Qed.

Lemma settle_bind {A} user (m : M A) (k : A → M pc) w :
  settle user (bind m k) w
  = match m w with
    | (Ok a, w') => settle user (k a) w'
    | (Raised e, w') =>
        (Finished (Raised e), (log_and_reraise (A:=User) user e w').2)
    end.
Proof. unfold settle, bind. by destruct (m w) as [[a|e] w1]. Qed.

(** A caller that runs alone for five steps does what one call of
    [register_with_open_wearables] does: same result, same table, same
    events. *)
Lemma run_task_is_register env user w :
  run_task 5 (Task user env AtEntry) w
  = (Task user env (Finished (register_with_open_wearables env user w).1),
     (register_with_open_wearables env user w).2).
Proof.
  destruct (register_with_open_wearables env user w) as [r w'] eqn:Hreg.
  cbn [fst snd]. unfold register_with_open_wearables in Hreg.
  rewrite run_task_S. unfold task_step at 1 2.
  cbn [fst snd t_pc t_user t_env].
  destruct (open_wearables_user_id user); cbn [fst snd].
  { revert Hreg. unfold_m. intros ?; simplify_eq.
    by rewrite run_task_finished. }
  unfold create_user in Hreg. rewrite try_bind, bind_run in Hreg.
  rewrite run_task_S. unfold task_step at 1 2.
  cbn [fst snd t_pc t_user t_env]. rewrite settle_bind.
  destruct (find_user_by_external_id _ _ w) as [[existing|e] w1];
    cbn [fst snd t_pc t_user t_env] in *.
  - unfold after_find in Hreg.
    destruct existing as [d|]; [destruct (dict_truthy (Some d))|].
    + rewrite bind_run in Hreg. unfold emit at 1 in Hreg.
      unfold ret at 1 in Hreg. rewrite try_bind in Hreg.
      rewrite settle_bind. unfold emit at 1 2. rewrite settle_bind.
      match goal with |- context [ow_id_of d ?w2] =>
        destruct (ow_id_of d w2) as [[ow|e] w3] end;
        cbn [fst snd t_pc t_user t_env] in *.
      * unfold settle, ret. cbn [fst snd].
        by apply run_task_from_update.
      * rewrite log_and_reraise_run in *. simplify_eq.
        by rewrite run_task_finished.
    + rewrite <- try_bind in Hreg. unfold settle, ret. cbn [fst snd].
      by apply run_task_from_create.
    + rewrite <- try_bind in Hreg. unfold settle, ret. cbn [fst snd].
      by apply run_task_from_create.
  - rewrite log_and_reraise_run in *. simplify_eq.
    by rewrite run_task_finished.
Qed.

(** * Further properties of the code *)

(** ** One call of the coordinator, start to end *)

Lemma rowcount_after_update uid ow t :
  rowcount_update_link uid (apply_update_link uid ow t) = 0%nat.
Proof.
  rewrite rowcount_links, links_apply_update.
  induction (links uid t) as [|[v|] ls IH]; [done|..];
    rewrite fmap_cons, filter_cons; by rewrite decide_False.
Qed.

Lemma apply_update_link_other_rows uid ow t :
  filter (λ r, id r ≠ uid) (apply_update_link uid ow t)
  = filter (λ r, id r ≠ uid) t.
Proof.
  unfold apply_update_link. induction t as [|r t IH]; [done|].
  rewrite fmap_cons, !filter_cons, IH.
  destruct (decide (unlinked uid r)) as [[Hid _]|_]; [|done].
  simpl. by rewrite !decide_False by auto.
Qed.

Lemma get_user_by_id_after_update uid ow t :
  get_user_by_id (apply_update_link uid ow t) uid
  = (λ r, if decide (unlinked uid r) then set_link r ow else r)
      <$> get_user_by_id t uid.
Proof.
  unfold get_user_by_id, apply_update_link.
  induction t as [|r t IH]; [done|].
  rewrite fmap_cons, !filter_cons.
  destruct (decide (unlinked uid r)) as [[Hid Hn]|Hn]; simpl.
  - rewrite !decide_True by done. simpl.
    rewrite decide_True; [done|]. by split.
  - destruct (decide (id r = uid)) as [Hid|Hid]; [|done]. simpl.
    by rewrite decide_False.
Qed.

(** The slow path once the upstream call has given an id and the datastore
    runs the statement: the UPDATE, its log record and the reload. *)
Lemma register_slow_path env user w ow w1 :
  open_wearables_user_id user = None →
  (let! result := create_user env (auth0_id user) (email user) in
   ow_id_of result) w = (Ok ow, w1) →
  update_fails env = false →
  let rc := rowcount_update_link (id user) (tbl w) in
  let t' := apply_update_link (id user) ow (tbl w) in
  let tr' := trace w1 ++
    [SqlUpdateLink (id user) ow rc;
     Log INFO (if decide (0 < rc)%nat then MsgRegistered (id user) ow
               else MsgRegisteredByAnother (id user))] in
  tbl w1 = tbl w ∧
  register_with_open_wearables env user w
  = match get_user_by_id t' (id user) with
    | Some row => (Ok row, World t' tr')
    | None =>
        (Raised InvalidRequestError,
         World t' (tr' ++ [Log ERROR
                     (MsgRegisterFailed (id user) InvalidRequestError)]))
    end.
Proof.
  intros Hnull Hup Hdb. simpl.
  unfold register_with_open_wearables. rewrite Hnull.
  unfold bind at 1 in Hup.
  destruct (create_user _ _ _ _) as [[result|e] w0] eqn:Hcreate; [|done].
  pose proof (create_user_keeps_tbl _ _ _ _ _ _ Hcreate) as Htbl.
  pose proof (ow_id_of_pure _ _ _ _ Hup) as ->.
  split; [done|].
  unfold try_except, bind at 1. rewrite Hcreate.
  unfold bind at 1. rewrite Hup.
  unfold execute_update_link, log_rowcount, refresh, log_and_reraise.
  rewrite Hdb. unfold_m. simpl. rewrite Htbl.
  destruct (decide (0 < rowcount_update_link (id user) (tbl w))%nat);
    simpl; destruct (get_user_by_id _ _); simpl;
    by rewrite <- ?app_assoc.
Qed.

Lemma register_Ok_inv env user w u w' :
  open_wearables_user_id user = None →
  register_with_open_wearables env user w = (Ok u, w') →
  id u = id user ∧
  get_user_by_id (tbl w') (id user) = Some u ∧
  rowcount_update_link (id user) (tbl w') = 0%nat ∧
  ∃ v, open_wearables_user_id u = Some v.
Proof.
  intros Hnull Hreg.
  assert (get_user_by_id (tbl w') (id user) = Some u ∧
          rowcount_update_link (id user) (tbl w') = 0%nat) as [Hrow Hrc].
  { revert Hreg. unfold register_with_open_wearables. rewrite Hnull.
    unfold try_except, bind at 1.
    destruct (create_user _ _ _ _) as [[result|e0] w0] eqn:Hcreate;
      [|by unfold log_and_reraise; unfold_m].
    pose proof (create_user_keeps_tbl _ _ _ _ _ _ Hcreate) as Htbl.
    unfold bind at 1.
    destruct (ow_id_of result w0) as [[ow|e1] w1] eqn:Hid;
      [|by unfold log_and_reraise; unfold_m].
    pose proof (ow_id_of_pure _ _ _ _ Hid) as ->.
    unfold execute_update_link, log_rowcount, refresh, log_and_reraise.
    unfold_m. intros H.
    repeat case_match; simplify_eq/=;
      (split; [done|apply rowcount_after_update]). }
  destruct (get_user_by_id_Some _ _ _ Hrow) as [Hid Hin].
  split_and!; [done..|]. by eapply rowcount_zero_linked.
Qed.

(** X1. Whenever the slow path of the coordinator returns a user, that
    user is the row now stored under the caller's primary key, its link is
    set, and no row of that key is left with a null link. *)
Theorem register_returns_stored_linked_row env user w u w' :
  open_wearables_user_id user = None →
  register_with_open_wearables env user w = (Ok u, w') →
  id u = id user ∧
  get_user_by_id (tbl w') (id user) = Some u ∧
  rowcount_update_link (id user) (tbl w') = 0%nat ∧
  ∃ v, open_wearables_user_id u = Some v.
Proof. apply register_Ok_inv. Qed.

Lemma register_alone_run env user w ow w1 :
  open_wearables_user_id user = None →
  links (id user) (tbl w) = [None] →
  (let! result := create_user env (auth0_id user) (email user) in
   ow_id_of result) w = (Ok ow, w1) →
  update_fails env = false →
  ∃ row,
    get_user_by_id (tbl w) (id user) = Some row ∧
    register_with_open_wearables env user w
    = (Ok (set_link row ow),
       World (apply_update_link (id user) ow (tbl w))
         (trace w1 ++ [SqlUpdateLink (id user) ow 1;
                       Log INFO (MsgRegistered (id user) ow)])) ∧
    links (id user) (apply_update_link (id user) ow (tbl w)) = [Some ow] ∧
    filter (λ r, id r ≠ id user) (apply_update_link (id user) ow (tbl w))
    = filter (λ r, id r ≠ id user) (tbl w).
Proof.
  intros Hnull Hlinks Hup Hdb.
  destruct (links_get _ _ _ Hlinks) as (row & Hrow & Hrowl).
  destruct (get_user_by_id_Some _ _ _ Hrow) as [Hid _].
  destruct (register_slow_path _ _ _ _ _ Hnull Hup Hdb) as [_ Hrun].
  exists row. split_and!; [done| | |apply apply_update_link_other_rows].
  - rewrite Hrun, get_user_by_id_after_update, Hrow. simpl.
    rewrite decide_True by done.
    rewrite rowcount_links, Hlinks. done.
  - by rewrite links_apply_update, Hlinks.
Qed.

(** X2. A single call on a row whose link is null, the upstream call
    giving the id [ow]: the UPDATE matches exactly that row, the call
    returns it with its link set to [ow], the "registered" record is
    logged, and the rows of other users are untouched. *)
Theorem register_alone_links_the_row env user w ow w1 :
  open_wearables_user_id user = None →
  links (id user) (tbl w) = [None] →
  (let! result := create_user env (auth0_id user) (email user) in
   ow_id_of result) w = (Ok ow, w1) →
  update_fails env = false →
  ∃ row,
    get_user_by_id (tbl w) (id user) = Some row ∧
    register_with_open_wearables env user w
    = (Ok (set_link row ow),
       World (apply_update_link (id user) ow (tbl w))
         (trace w1 ++ [SqlUpdateLink (id user) ow 1;
                       Log INFO (MsgRegistered (id user) ow)])) ∧
    links (id user) (apply_update_link (id user) ow (tbl w)) = [Some ow] ∧
    filter (λ r, id r ≠ id user) (apply_update_link (id user) ow (tbl w))
    = filter (λ r, id r ≠ id user) (tbl w).
Proof. apply register_alone_run. Qed.


(** ** The client without a key, and a lookup that fails *)

Lemma get_headers_unconfigured w :
  is_configured = false →
  _get_headers w = (Raised OpenWearablesConfigurationError, w).
Proof.
  intros H. unfold _get_headers, _ensure_configured. rewrite H. done.
Qed.

Lemma get_headers_configured w :
  is_configured = true →
  _get_headers w
  = (Ok [("X-Open-Wearables-API-Key", api_key);
         ("Content-Type", "application/json")], w).
Proof.
  intros H. unfold _get_headers, _ensure_configured. rewrite H. done.
Qed.

Lemma client_get_unconfigured {A} path params (reply : http_reply A) w :
  is_configured = false →
  client_get path params reply w = (Raised OpenWearablesConfigurationError, w).
Proof.
  intros H. unfold client_get, bind.
  by rewrite (get_headers_unconfigured _ H).
Qed.

Lemma client_get_configured {A} path params (reply : http_reply A) w :
  is_configured = true →
  client_get path params reply w
  = (match reply with
     | NetworkError => Raised HTTPRequestError
     | Response status body => Ok (status, body)
     end,
     World (tbl w) (trace w ++ [HttpGet path params])).
Proof.
  intros H. unfold client_get, bind.
  rewrite (get_headers_configured _ H). unfold_m. by destruct reply.
Qed.

(** X4. Without an API key each of these methods of the client raises
    [OpenWearablesConfigurationError] before anything is sent: the world
    (table and trace) is exactly what it was. *)
Theorem unconfigured_client_sends_nothing
    env external_id email_ (lreply : http_reply (list dict))
    (dreply : http_reply dict) (jreply : http_reply json)
    (sreply : http_reply (option json)) clock provider user_id link
    redirect_uri start_date end_date workout_type limit cursor kind
    data_type w :
  is_configured = false →
  let failed {A} (m : M A) :=
    m w = (Raised OpenWearablesConfigurationError, w) in
  failed (find_user_by_external_id env external_id) ∧
  failed (create_user env external_id email_) ∧
  failed (find_user_by_email lreply email_) ∧
  failed (client_get_authorization_url dreply provider link redirect_uri) ∧
  failed (get_sleep_sessions jreply user_id start_date end_date limit cursor) ∧
  failed (get_event_workouts jreply user_id start_date end_date workout_type
            limit cursor) ∧
  failed (get_summary kind jreply user_id start_date end_date limit cursor) ∧
  failed (sync_user_data clock sreply link provider data_type).
Proof.
  intros H. simpl.
  assert (find_user_by_external_id env external_id w
          = (Raised OpenWearablesConfigurationError, w)) as Hfind.
  { unfold find_user_by_external_id, bind.
    by rewrite (get_headers_unconfigured _ H). }
  split_and!.
  - done.
  - unfold create_user, bind. by rewrite Hfind.
  - unfold find_user_by_email, bind. by rewrite client_get_unconfigured.
  - unfold client_get_authorization_url, bind.
    by rewrite client_get_unconfigured.
  - unfold get_sleep_sessions, bind. by rewrite client_get_unconfigured.
  - unfold get_event_workouts, bind. by rewrite client_get_unconfigured.
  - unfold get_summary, bind. by rewrite client_get_unconfigured.
  - unfold sync_user_data, bind. by rewrite (get_headers_unconfigured _ H).
Qed.

(** X5. When the lookup by [external_user_id] fails (no response, or a
    status outside 2xx), [create_user] raises that failure having sent the
    GET only: it never goes on to create an account. *)
Theorem create_user_failed_lookup_sends_no_post env external_id email_ w e :
  is_configured = true →
  lookup_failure env = Some e →
  create_user env external_id email_ w
  = (Raised e,
     World (tbl w)
       (trace w ++ [HttpGet "/api/v1/users"
                      [("external_user_id", external_id); ("limit", "1")]])).
Proof.
  intros Hc Hfail. unfold create_user, find_user_by_external_id.
  unfold bind at 1 2. rewrite (get_headers_configured _ Hc).
  unfold lookup_failure in Hfail. unfold_m.
  destruct (find_reply env) as [|status items]; [by simplify_eq|].
  destruct (is_success status); by simplify_eq.
Qed.

(** ** [find_user_by_email] *)

Lemma head_filter_first {A} (P : A → Prop) `{!∀ x, Decision (P x)}
    (l : list A) :
  match head (filter P l) with
  | Some x => ∃ before after,
      l = before ++ x :: after ∧ P x ∧ Forall (λ y, ¬ P y) before
  | None => Forall (λ y, ¬ P y) l
  end.
Proof.
  induction l as [|a l IH]; [by constructor|].
  rewrite filter_cons. destruct (decide (P a)) as [Ha|Ha]; simpl.
  - exists [], l. by split_and!.
  - destruct (head (filter P l)) as [x|].
    + destruct IH as (before & after & -> & Hx & Hb).
      exists (a :: before), after. split_and!; [done..|by constructor].
    + by constructor.
Qed.

(** X6. On a 2xx response [find_user_by_email] returns the first listed
    user whose email is the one asked for, and [None] exactly when no listed
    user has it; it sends a single GET of the first 100 users. *)
Theorem find_user_by_email_first_match status items email_ w :
  is_configured = true →
  is_success status = true →
  ∃ r,
    find_user_by_email (Response status items) email_ w
    = (Ok r, World (tbl w)
               (trace w ++ [HttpGet "/api/v1/users" [("limit", "100")]])) ∧
    match r with
    | Some user => ∃ before after,
        items = before ++ user :: after ∧
        user !! "email" = Some email_ ∧
        Forall (λ other, other !! "email" ≠ Some email_) before
    | None => Forall (λ other, other !! "email" ≠ Some email_) items
    end.
Proof.
  intros Hc Hst. eexists. split.
  - unfold find_user_by_email, bind at 1.
    rewrite (client_get_configured _ _ _ _ Hc). simpl.
    unfold raise_for_status. rewrite Hst. by unfold_m.
  - apply (head_filter_first (λ user : dict, user !! "email" = Some email_)).
Qed.

(** ** [register_user] and [get_current_user] *)

(** X7. For a user not yet registered, whenever the coordinator returns,
    [register_user] answers with the link now stored in the table and
    [already_registered = False] (also when it was another request that set
    the link); the pydantic model is never built from a null link. *)
Theorem register_user_reports_stored_link env user w u w' :
  open_wearables_user_id user = None →
  register_with_open_wearables env user w = (Ok u, w') →
  ∃ l,
    register_user env user w = (Ok (mkRegisterResponse l false), w') ∧
    open_wearables_user_id u = Some l ∧
    get_user_by_id (tbl w') (id user) = Some u.
Proof.
  intros Hnull Hreg.
  destruct (register_Ok_inv env user w u w' Hnull Hreg)
    as (_ & Hrow & _ & l & Hl).
  exists l. split_and!; [|done..].
  unfold register_user. rewrite Hnull. unfold bind. rewrite Hreg, Hl. done.
Qed.

Lemma fallback_email_nonempty a : fallback_email a ≠ "".
Proof.
  unfold fallback_email. induction a as [|c a IH]; simpl; discriminate.
Qed.

Lemma or_fallback_nonempty o a : or_fallback o a ≠ "".
Proof.
  unfold or_fallback. destruct o as [s|]; [|apply fallback_email_nonempty].
  destruct (String.eqb s "") eqn:Hs; [apply fallback_email_nonempty|].
  by apply String.eqb_neq.
Qed.

Lemma token_email_nonempty v : token_email v ≠ "".
Proof. unfold token_email. apply or_fallback_nonempty. Qed.

(** X8. A user who is registered and whose stored email is the one of the
    token: [get_current_user] returns the [UserInfo] of the stored row and
    the world is exactly what it was (no write, no request to the upstream
    platform, no log record). *)
Theorem get_current_user_established_user_is_read_only
    v cenv env w user l :
  get_user_by_auth0_id (tbl w) (v_auth0_id v) = Some user →
  email user = token_email v →
  v_auth0_id v ≠ "" →
  open_wearables_user_id user = Some l →
  get_current_user v cenv env w
  = (Ok (mkUserInfo (id user) (v_auth0_id v) (email user)
                    (v_permissions v) (v_payload v)), w).
Proof.
  intros Hfound Hemail Ha Hl.
  unfold get_current_user, get_or_create_user. unfold bind at 1.
  rewrite (eqb_empty_false _ Ha),
    (eqb_empty_false _ (token_email_nonempty v)). simpl.
  unfold bind at 1. unfold get_tbl at 1. rewrite Hfound.
  rewrite decide_False by (by rewrite Hemail; intros []).
  unfold ret at 1. unfold bind at 1. rewrite Hl. done.
Qed.

Lemma resolver_raises cenv auth0_id_ email_ w e w' :
  auth0_id_ ≠ "" → email_ ≠ "" →
  get_or_create_user cenv auth0_id_ email_ w = (Raised e, w') →
  e = IntegrityError ∨ e = NoResultFound.
Proof.
  intros Ha He. unfold get_or_create_user, update, create.
  rewrite (eqb_empty_false _ Ha), (eqb_empty_false _ He). simpl.
  unfold_m. intros H. repeat case_match; simplify_eq/=; auto.
Qed.

Lemma auto_register_returns env user w :
  ∃ u w', try_except (register_with_open_wearables env user)
            (on_register_error user) w = (Ok u, w').
Proof.
  unfold try_except.
  destruct (register_with_open_wearables env user w) as [[u|e] w1]; [eauto|].
  unfold on_register_error. destruct e; unfold_m; eauto.
Qed.

(** X9. [get_current_user] raises [ValueError] exactly when the verified
    user id is empty: a token without an email never makes it do so, since
    the email passed on is never empty. *)
Theorem get_current_user_value_error_iff_no_user_id v cenv env w :
  (get_current_user v cenv env w).1 = Raised ValueError ↔ v_auth0_id v = "".
Proof.
  unfold get_current_user. unfold bind at 1. split.
  - intros Hres. destruct (decide (v_auth0_id v = "")) as [|Ha]; [done|].
    exfalso.
    destruct (get_or_create_user _ _ _ w) as [[user|e] w1] eqn:Hresolve.
    + unfold bind in Hres.
      destruct (open_wearables_user_id user).
      * by unfold_m.
      * destruct (auto_register_returns env user w1) as (u & w' & Hauto).
        by rewrite Hauto in Hres.
    + simpl in Hres. simplify_eq.
      by destruct (resolver_raises _ _ _ _ _ _ Ha (token_email_nonempty v)
                     Hresolve).
  - intros Ha. unfold get_or_create_user. rewrite Ha. done.
Qed.

(** ** The authorization URL *)

(** X10. For a registered user [get_authorization_url] does not touch the
    coordinator: it sends one GET to the OAuth endpoint of the lower-cased
    provider, with the stored link as [user_id] (and [redirect_uri] only
    when one is given), runs no SQL, and answers with the provider as the
    caller wrote it. *)
Theorem authorization_url_for_registered_user
    env status result user l provider redirect_uri w :
  open_wearables_user_id user = Some l →
  is_configured = true →
  is_success status = true →
  service_get_authorization_url env (Response status result) user provider
    redirect_uri w
  = (Ok (mkAuthorizationResponse
           (default "" (result !! "authorization_url")) provider),
     World (tbl w)
       (trace w ++
        [HttpGet ("/api/v1/oauth/" +:+ str_lower provider +:+ "/authorize")
           ([("user_id", str_of_UUID l)]
            ++ optional_param "redirect_uri" redirect_uri)])).
Proof.
  intros Hl Hc Hst. unfold service_get_authorization_url.
  unfold bind at 1. rewrite Hl. unfold ret at 1. rewrite Hl.
  unfold client_get_authorization_url. unfold bind at 1 2.
  rewrite (client_get_configured _ _ _ _ Hc). simpl.
  unfold raise_for_status. rewrite Hst. by unfold_m.
Qed.

(** X11. For a user not yet registered [get_authorization_url] registers
    first. If that raises, the exception is the result and nothing is asked
    of the OAuth endpoint; if it returns, the request carries the link that
    is now stored in the table. *)
Theorem authorization_url_registers_first
    env reply user provider redirect_uri w r w1 :
  open_wearables_user_id user = None →
  register_with_open_wearables env user w = (r, w1) →
  match r with
  | Raised e =>
      service_get_authorization_url env reply user provider redirect_uri w
      = (Raised e, w1)
  | Ok u =>
      ∃ l,
        open_wearables_user_id u = Some l ∧
        get_user_by_id (tbl w1) (id user) = Some u ∧
        service_get_authorization_url env reply user provider redirect_uri w
        = (let! result := client_get_authorization_url reply
                            (str_lower provider) (Some l) redirect_uri in
           ret (mkAuthorizationResponse
                  (default "" (result !! "authorization_url")) provider)) w1
  end.
Proof.
  intros Hnull Hreg. unfold service_get_authorization_url.
  destruct r as [u|e].
  - destruct (register_Ok_inv env user w u w1 Hnull Hreg)
      as (_ & Hrow & _ & l & Hl).
    exists l. split_and!; [done..|].
    unfold bind at 1. by rewrite Hnull, Hreg, Hl.
  - unfold bind at 1. by rewrite Hnull, Hreg.
Qed.

(** ** Syncing and the paged endpoints *)

(** X12. A 400 answer to a sync whose ["detail"] text mentions
    ["already exists"] or ["UniqueViolation"] is not an error: the result is
    the "already synced" success with [synced_count] 0, whatever else the
    text mentions, and nothing is raised. *)
Theorem sync_duplicate_data_is_success
    clock fields detail user_id provider data_type w :
  is_configured = true →
  assoc "detail" fields = Some (JStr detail) →
  str_in "already exists" detail = true ∨
  str_in "UniqueViolation" detail = true →
  sync_user_data clock (Response 400 (Some (JObj fields))) user_id provider
    data_type w
  = (Ok already_synced,
     World (tbl w)
       (trace w ++
        [HttpPost ("/api/v1/providers/" +:+ str_lower provider +:+ "/users/"
                   +:+ str_of_link user_id +:+ "/sync")
           (sync_params clock (str_lower provider) data_type)])).
Proof.
  intros Hc Hdetail Hmark. unfold sync_user_data. unfold bind at 1.
  rewrite (get_headers_configured _ Hc). unfold bind at 1. unfold emit at 1.
  simpl. rewrite Hdetail. simpl.
  destruct Hmark as [-> | ->]; [done|]. by rewrite orb_true_r.
Qed.

(** X13. A 400 answer to a sync is turned into a result only when the
    ["detail"] of its JSON object mentions one of the four markers; the
    result is then one of the three the client builds. Any other 400 is
    raised. *)
Theorem sync_400_needs_a_marker
    clock body user_id provider data_type w r w' :
  sync_user_data clock (Response 400 body) user_id provider data_type w
    = (r, w') →
  match r with
  | Ok result =>
      ∃ fields marker,
        body = Some (JObj fields) ∧
        py_in marker (default (JStr "") (assoc "detail" fields)) = Ok true ∧
        marker ∈ ["already exists"; "UniqueViolation";
                  "InvalidPullTokenException"; "28 days"] ∧
        result ∈ [already_synced; garmin_expired; suunto_range]
  | Raised e =>
      e = HTTPStatusError 400 ∨ e = OpenWearablesConfigurationError
  end.
Proof using api_key str_of_UUID str_lower.
  unfold sync_user_data, _get_headers, _ensure_configured,
    raise_for_status. unfold_m.
  destruct is_configured; [|by intros ?; simplify_eq/=; right].
  simpl. unfold handle_sync_400.
  destruct body as [[| | | | |fields]|]; try (intros ?; simplify_eq/=; by left).
  set (d := default (JStr "") (assoc "detail" fields)).
  destruct (py_in "already exists" d) as [a|] eqn:Ha;
    [|by intros ?; simplify_eq/=; left].
  destruct (py_in "UniqueViolation" d) as [b|] eqn:Hb;
    [|by intros ?; simplify_eq/=; left].
  destruct (py_in "InvalidPullTokenException" d) as [c|] eqn:Hc;
    [|by intros ?; simplify_eq/=; left].
  destruct (py_in "28 days" d) as [d'|] eqn:Hd;
    [|by intros ?; simplify_eq/=; left].
  destruct a; simpl.
  { intros ?; simplify_eq/=. exists fields, "already exists".
    split_and!; [done..| |];
      repeat first [apply list_elem_of_here | apply list_elem_of_further]. }
  destruct b; simpl.
  { intros ?; simplify_eq/=. exists fields, "UniqueViolation".
    split_and!; [done..| |];
      repeat first [apply list_elem_of_here | apply list_elem_of_further]. }
  destruct c; simpl.
  { intros ?; simplify_eq/=. exists fields, "InvalidPullTokenException".
    split_and!; [done..| |];
      repeat first [apply list_elem_of_here | apply list_elem_of_further]. }
  destruct d'; simpl.
  { intros ?; simplify_eq/=. exists fields, "28 days".
    split_and!; [done..| |];
      repeat first [apply list_elem_of_here | apply list_elem_of_further]. }
  intros ?; simplify_eq/=. by left.
Qed.

(** X14. The four summary endpoints answer an upstream 501 ("not
    implemented") with an empty page instead of an error, whatever the body;
    the session endpoint raises on the same answer. *)
Theorem summary_not_implemented_is_empty_page
    body user_id start_date end_date limit cursor w :
  is_configured = true →
  let reply := Response 501 body in
  (get_activity_summary reply user_id start_date end_date limit cursor w).1
    = Ok empty_page ∧
  (get_sleep_summary reply user_id start_date end_date limit cursor w).1
    = Ok empty_page ∧
  (get_recovery_summary reply user_id start_date end_date limit cursor w).1
    = Ok empty_page ∧
  (get_body_summary reply user_id start_date end_date limit cursor w).1
    = Ok empty_page ∧
  (get_sleep_sessions reply user_id start_date end_date limit cursor w).1
    = Raised (HTTPStatusError 501).
Proof.
  intros Hc. simpl.
  unfold get_activity_summary, get_sleep_summary, get_recovery_summary,
    get_body_summary, get_summary, get_sleep_sessions.
  unfold bind. cbv beta.
  repeat rewrite (client_get_configured _ _ _ _ Hc). simpl. by unfold_m.
Qed.

(** X15. Whatever [limit] the caller passes, the event and summary
    requests ask the upstream platform for [min(limit, 100)] results: never
    more than 100, and [limit] itself when it is at most 100. *)
Theorem paged_requests_cap_limit
    (reply : http_reply json) user_id start_date end_date workout_type
    limit cursor kind w :
  is_configured = true →
  let n := (limit `min` 100)%Z in
  let head_params :=
    [("start_date", start_date); ("end_date", end_date);
     ("limit", pretty n)] in
  (n ≤ 100)%Z ∧ (n = limit ∨ (100 < limit)%Z) ∧
  trace (get_sleep_sessions reply user_id start_date end_date limit cursor
           w).2
    = trace w ++
      [HttpGet ("/api/v1/users/" +:+ str_of_UUID user_id +:+ "/events/sleep")
         (head_params ++ optional_param "cursor" cursor)] ∧
  trace (get_event_workouts reply user_id start_date end_date workout_type
           limit cursor w).2
    = trace w ++
      [HttpGet ("/api/v1/users/" +:+ str_of_UUID user_id
                +:+ "/events/workouts")
         (head_params ++ optional_param "type" workout_type
          ++ optional_param "cursor" cursor)] ∧
  trace (get_summary kind reply user_id start_date end_date limit cursor w).2
    = trace w ++
      [HttpGet ("/api/v1/users/" +:+ str_of_UUID user_id +:+ "/summaries/"
                +:+ kind)
         (head_params ++ optional_param "cursor" cursor)].
Proof.
  intros Hc. simpl. split_and!; [lia|lia|..].
  - unfold get_sleep_sessions. unfold bind at 1.
    rewrite (client_get_configured _ _ _ _ Hc).
    unfold raise_for_status. destruct reply as [|status body]; [done|].
    unfold_m. simpl. by destruct (is_success status).
  - unfold get_event_workouts. unfold bind at 1.
    rewrite (client_get_configured _ _ _ _ Hc).
    unfold raise_for_status. destruct reply as [|status body]; [done|].
    unfold_m. simpl. by destruct (is_success status).
  - unfold get_summary. unfold bind at 1.
    rewrite (client_get_configured _ _ _ _ Hc).
    unfold raise_for_status. destruct reply as [|status body]; [done|].
    unfold_m. simpl.
    destruct (status =? 501)%N; [done|]. by destruct (is_success status).
Qed.

(** ** The routes behind [get_current_user] *)

Lemma get_user_by_id_elem t (user : User) :
  user ∈ t → is_Some (get_user_by_id t (id user)).
Proof.
  intros Hin. unfold get_user_by_id.
  destruct (filter _ t) as [|row rest] eqn:Hf; [|by eexists].
  exfalso. by eapply (filter_nil_not_elem_of _ _ user Hf).
Qed.

Lemma link_history_keeps_rows t t' uid :
  Forall2 link_history t t' →
  is_Some (get_user_by_id t uid) → is_Some (get_user_by_id t' uid).
Proof.
  unfold get_user_by_id. induction 1 as [|r r' t t' Hr _ IH]; [done|].
  assert (id r' = id r) as Hid.
  { destruct Hr as [->|[_ [ow ->]]]; done. }
  rewrite !filter_cons, Hid.
  destruct (decide (id r = uid)); [by eexists|done].
Qed.

(** The row the Identity Resolver returns is in the table under its id. *)
Lemma resolver_row_exists cenv auth0_id_ email_ w user w1 :
  get_or_create_user cenv auth0_id_ email_ w = (Ok user, w1) →
  is_Some (get_user_by_id (tbl w1) (id user)).
Proof using Type.
  clear UUID_of_str str_lower.
  unfold get_or_create_user.
  destruct (_ || _); [done|].
  unfold bind at 1. unfold get_tbl at 1.
  destruct (get_user_by_auth0_id (tbl w) auth0_id_) as [found|] eqn:Hfound.
  - destruct (get_user_by_auth0_id_Some _ _ _ Hfound) as [_ Hin].
    case_decide.
    + unfold update. unfold bind, ret, raise, try_except, emit, get_tbl, put_tbl.
      destruct (get_user_by_id (tbl w) (id found)) as [row|] eqn:Hrow;
        [|done].
      case_decide; [done|]. intros ?; simplify_eq/=.
      destruct (get_user_by_id_Some _ _ _ Hrow) as [-> _].
      unfold get_user_by_id in Hrow |- *. rewrite set_email_rows_by_id.
      destruct (filter _ (tbl w)); by simplify_eq/=.
    + unfold ret. intros ?; simplify_eq. by apply get_user_by_id_elem.
  - unfold create. unfold bind, ret, raise, try_except, emit, get_tbl, put_tbl. case_decide; [done|].
    intros ?; simplify_eq/=.
    apply (get_user_by_id_elem _
             (mkUser (new_id cenv) auth0_id_ email_ None (now cenv)
                     (now cenv))).
    set_solver.
Qed.

(** X16. After [get_current_user] has returned, the row with the id of
    its [UserInfo] is in the table: in a request served in one piece
    [_get_user_or_404] finds the user and no route answers 404. *)
Theorem authenticated_user_is_found v cenv env w info w1 :
  get_current_user v cenv env w = (Ok info, w1) →
  ∃ user,
    _get_user_or_404 w1 (user_id info) = Answer user ∧
    id user = user_id info.
Proof using api_key UUID_of_str.
  clear str_lower.
  intros Hcur.
  assert (is_Some (get_user_by_id (tbl w1) (user_id info))) as [row Hrow].
  { revert Hcur. unfold get_current_user. unfold bind at 1.
    destruct (get_or_create_user _ _ _ w) as [[user|e] wa] eqn:Hresolve;
      [|done].
    pose proof (resolver_row_exists _ _ _ _ _ _ Hresolve) as Hex.
    unfold bind at 1.
    destruct (open_wearables_user_id user) eqn:Hlink.
    - unfold bind, ret, raise, try_except, emit, get_tbl, put_tbl. by intros ?; simplify_eq/=.
    - unfold try_except.
      destruct (register_with_open_wearables env user wa) as [[u|e] wb]
        eqn:Hreg.
      + destruct (register_Ok_inv _ _ _ _ _ Hlink Hreg) as (Hid & Hrow & _).
        unfold ret. intros ?; simplify_eq/=. rewrite Hid. by eexists.
      + pose proof (register_raised_keeps_tbl _ _ _ _ _ Hreg) as Htbl.
        unfold on_register_error.
        destruct e; unfold bind, ret, raise, try_except, emit, get_tbl, put_tbl; intros ?; simplify_eq/=; by rewrite Htbl. }
  exists row. unfold _get_user_or_404. rewrite Hrow.
  split; [done|]. by destruct (get_user_by_id_Some _ _ _ Hrow).
Qed.

(** X17. A request to [POST /register] by a user whom [get_current_user]
    has just registered: the route finds the user registered, answers with
    the stored link and [already_registered = True], and adds nothing to the
    world (no second upstream call, no statement, no log record). *)
Theorem register_route_after_auto_registration
    v cenv env env' w user w1 u w2 :
  get_or_create_user cenv (v_auth0_id v) (token_email v) w = (Ok user, w1) →
  open_wearables_user_id user = None →
  register_with_open_wearables env user w1 = (Ok u, w2) →
  ∃ l info,
    open_wearables_user_id u = Some l ∧
    get_current_user v cenv env w = (Ok info, w2) ∧
    user_id info = id user ∧
    route_register info env' w2 = (Answer (mkRegisterResponse l true), w2).
Proof.
  intros Hresolve Hnull Hreg.
  destruct (register_Ok_inv _ _ _ _ _ Hnull Hreg)
    as (Hid & Hrow & _ & l & Hl).
  exists l. eexists. split_and!; [done| | |].
  - unfold get_current_user. unfold bind at 1. rewrite Hresolve.
    unfold bind at 1. rewrite Hnull. unfold try_except. rewrite Hreg.
    reflexivity.
  - done.
  - unfold route_register, _get_user_or_404. simpl. rewrite Hid, Hrow.
    unfold register_user. rewrite Hl. done.
Qed.

(** ** The race when the outside may fail *)




Lemma hush_get_tbl : hush get_tbl.
Proof. intros w. split; [done|]. exists []. by rewrite app_nil_r. Qed.

















(** ** The authorize route *)

Lemma client_get_authorization_url_Ok reply provider link redirect_uri w
    result w' :
  client_get_authorization_url reply provider link redirect_uri w
    = (Ok result, w') →
  w' = World (tbl w)
         (trace w ++
          [HttpGet ("/api/v1/oauth/" +:+ provider +:+ "/authorize")
             ([("user_id", str_of_link link)]
              ++ optional_param "redirect_uri" redirect_uri)]).
Proof using Type.
  unfold client_get_authorization_url. unfold bind at 1.
  destruct is_configured eqn:Hc.
  - rewrite (client_get_configured _ _ _ _ Hc).
    destruct reply as [|status body]; [done|]. unfold bind at 1.
    unfold raise_for_status. cbn [fst snd].
    destruct (is_success status); [|done].
    unfold ret. by intros [= _ <-].
  - by rewrite (client_get_unconfigured _ _ _ _ Hc).
Qed.

(** X19. What the route [GET /authorize/{provider}] can answer. An
    authorization URL is only handed out for a user whose row, in the table
    the request leaves behind, carries a link, and the last request sent is
    the GET to the OAuth endpoint with that link as [user_id]. Otherwise the
    answer is 404, with nothing done, when the row is missing, or 502 with
    the exception that was caught. *)
Theorem authorize_route_answers
    current_user env reply provider redirect_uri w :
  match route_authorize current_user env reply provider redirect_uri w with
  | (Answer response, w') =>
      auth_provider response = provider ∧
      ∃ row l tr,
        get_user_by_id (tbl w') (user_id current_user) = Some row ∧
        open_wearables_user_id row = Some l ∧
        trace w' =
          tr ++ [HttpGet ("/api/v1/oauth/" +:+ str_lower provider
                          +:+ "/authorize")
                   ([("user_id", str_of_UUID l)]
                    ++ optional_param "redirect_uri" redirect_uri)]
  | (HTTPException status_code _ cause, w') =>
      (status_code = 404%N ∧ cause = None ∧ w' = w ∧
       get_user_by_id (tbl w) (user_id current_user) = None) ∨
      (status_code = 502%N ∧ is_Some cause ∧
       is_Some (get_user_by_id (tbl w) (user_id current_user)))
  end.
Proof using Type.
  unfold route_authorize, _get_user_or_404.
  destruct (get_user_by_id (tbl w) (user_id current_user)) as [user|]
    eqn:Hrow; [|by left].
  destruct (get_user_by_id_Some _ _ _ Hrow) as [Hid _].
  destruct (service_get_authorization_url _ _ _ _ _ _) as [[response|e] w']
    eqn:Hrun; [|right; by eauto].
  revert Hrun. unfold service_get_authorization_url. unfold bind at 1.
  destruct (open_wearables_user_id user) as [l|] eqn:Hl.
  - unfold ret at 1. rewrite Hl. unfold bind at 1.
    destruct (client_get_authorization_url _ _ _ _ w) as [[result|e] w1]
      eqn:Hget; [|done].
    apply client_get_authorization_url_Ok in Hget as ->.
    unfold ret. intros [= <- <-]. split; [done|].
    exists user, l, (trace w). simpl. by split_and!.
  - destruct (register_with_open_wearables env user w) as [[u|e] w1]
      eqn:Hreg; [|done].
    destruct (register_Ok_inv _ _ _ _ _ Hl Hreg) as (_ & Hu & _ & l & Hul).
    rewrite Hul. unfold bind at 1.
    destruct (client_get_authorization_url _ _ _ _ w1) as [[result|e] w2]
      eqn:Hget; [|done].
    apply client_get_authorization_url_Ok in Hget as ->.
    unfold ret. intros [= <- <-]. split; [done|].
    exists u, l, (trace w1). simpl. rewrite <-Hid. by split_and!.
Qed.

End Healthion.

(** * Examples on the sample data *)

Import Sample.

(** The scenario of the specification: the first sight of an identity
    creates the row, a later call with another email updates it in place. *)
Example resolver_creates_then_updates :
  get_or_create_user cenv0 "abc" "a@x.com" (World [] [])
    = (Ok (mkUser 3 "abc" "a@x.com" None 200 200),
       World [mkUser 3 "abc" "a@x.com" None 200 200]
             [SqlInsert (mkUser 3 "abc" "a@x.com" None 200 200)]) ∧
  get_or_create_user (CrudEnv 4 300) "abc" "b@x.com"
      (World [mkUser 3 "abc" "a@x.com" None 200 200] [])
    = (Ok (mkUser 3 "abc" "b@x.com" None 200 300),
       World [mkUser 3 "abc" "b@x.com" None 200 300]
             [SqlUpdateEmail 3 "b@x.com"]).
Proof. split; reflexivity. Qed.

(** The email of another user is refused and nothing is written. *)
Example resolver_refuses_taken_email :
  get_or_create_user cenv0 "auth0|abc" "b@x.com" w0
    = (Raised IntegrityError, w0).
Proof. reflexivity. Qed.

(** C6, as stated, fails: alice cannot take bob's email. *)
Lemma resolver_does_not_take_any_email : ¬ resolver_takes_any_email.
Proof.
  intros H.
  destruct (H cenv0 w0 "auth0|abc" "b@x.com" alice eq_refl)
    as (user' & w' & Hcall & _); [done..|].
  rewrite resolver_refuses_taken_email in Hcall. discriminate Hcall.
Qed.

Lemma concurrent_registration_single_winner_witness :
  ∃ v,
    links 1 (tbl (sys_world
      (run "key" uuid_of_str interleaving (System w0 (spawn racers)))))
      = [Some v] ∧
    Forall (λ t, ∃ u, t_pc t = Finished (Ok u) ∧
                      open_wearables_user_id u = Some v)
      (sys_tasks
         (run "key" uuid_of_str interleaving (System w0 (spawn racers)))) ∧
    rowcounts 1 (trace (sys_world
      (run "key" uuid_of_str interleaving (System w0 (spawn racers)))))
      = [1; 0; 0]%nat.
Proof.
  destruct (concurrent_registration_single_winner "key" uuid_of_str
              racers interleaving 1%N w0) as (v & Hlink & _ & Hall & Hrcs).
  - simpl. lia.
  - reflexivity.
  - repeat constructor; simpl;
      eexists; intros w; eexists; reflexivity.
  - intros i Hi. simpl in Hi.
    destruct i as [|[|[|i]]]; [vm_compute; lia..|lia].
  - exists v. split_and!; [exact Hlink | exact Hall | exact Hrcs].
Defined.

Lemma register_upstream_failure_mutates_nothing_witness :
  open_wearables_user_id alice = None ∧
  create_user "key" env_down "auth0|abc" "a@x.com" w0
    = (Raised HTTPRequestError,
       World [alice; bob]
         [HttpGet "/api/v1/users"
            [("external_user_id", "auth0|abc"); ("limit", "1")]]) ∧
  register_with_open_wearables "key" uuid_of_str env_down alice w0
    = (Raised HTTPRequestError,
       World [alice; bob]
         [HttpGet "/api/v1/users"
            [("external_user_id", "auth0|abc"); ("limit", "1")];
          Log ERROR (MsgRegisterFailed 1 HTTPRequestError)]).
Proof.
  split_and!; [reflexivity..|].
  pose proof (register_upstream_failure_mutates_nothing "key" uuid_of_str
                env_down alice w0 HTTPRequestError _ eq_refl eq_refl) as H.
  simpl in H. destruct H as (H & _). exact H.
Defined.

Lemma register_zero_rows_returns_stored_link_witness :
  rowcount_update_link 1 (tbl w_linked) = 0%nat ∧
  get_user_by_id (tbl w_linked) 1 = Some alice_linked ∧
  ∃ w', register_with_open_wearables "key" uuid_of_str env_created alice
          w_linked = (Ok alice_linked, w') ∧
        open_wearables_user_id alice_linked = Some 123%N.
Proof.
  split_and!; [reflexivity..|].
  pose proof (register_zero_rows_returns_stored_link "key" uuid_of_str
                env_created alice w_linked 456%N _ alice_linked
                eq_refl eq_refl eq_refl eq_refl eq_refl) as (H & _ & _).
  eexists. split; [exact H | reflexivity].
Defined.

Lemma register_linked_user_is_fast_path_witness :
  open_wearables_user_id alice_linked = Some 123%N ∧
  register_with_open_wearables "key" uuid_of_str env_down alice_linked
      w_linked
    = (Ok alice_linked,
       World (tbl w_linked) [Log INFO (MsgAlreadyRegistered 1)]) ∧
  register_user "key" uuid_of_str env_down alice_linked w_linked
    = (Ok (mkRegisterResponse 123 true), w_linked).
Proof.
  pose proof (register_linked_user_is_fast_path "key" uuid_of_str env_down
                env_down alice_linked 123%N w_linked eq_refl) as H.
  simpl in H. destruct H as (H1 & _ & _ & _ & _ & H2).
  split_and!; [reflexivity | exact H1 | exact H2].
Defined.

Lemma get_or_create_user_updates_free_email_witness :
  get_user_by_auth0_id (tbl w0) "auth0|abc" = Some alice ∧
  ∃ user' w',
    get_or_create_user cenv0 "auth0|abc" "c@x.com" w0 = (Ok user', w') ∧
    email user' = "c@x.com" ∧ id user' = id alice.
Proof.
  split; [reflexivity|].
  destruct (get_or_create_user_updates_free_email cenv0 "auth0|abc"
              "c@x.com" w0 alice) as (user' & w' & H & He & Hi & _).
  - reflexivity.
  - intros Heq. discriminate Heq.
  - intros Heq. discriminate Heq.
  - intros Heq. discriminate Heq.
  - intros Hex. apply Exists_cons in Hex as [[_ Heq]|Hex];
      [discriminate Heq|].
    apply Exists_cons in Hex as [[_ Heq]|Hex]; [discriminate Heq|].
    inversion Hex.
  - exists user', w'. split_and!; [exact H | exact He | exact Hi].
Defined.

Lemma get_or_create_user_rejects_empty_witness :
  get_or_create_user cenv0 "" "a@x.com" w0 = (Raised ValueError, w0).
Proof.
  apply (get_or_create_user_rejects_empty cenv0 "" "a@x.com" w0).
  left. reflexivity.
Defined.

Lemma get_or_create_user_same_email_no_write_witness :
  get_user_by_auth0_id (tbl w0) "auth0|abc" = Some alice ∧
  get_or_create_user cenv0 "auth0|abc" "a@x.com" w0 = (Ok alice, w0).
Proof.
  split; [reflexivity|].
  apply (get_or_create_user_same_email_no_write cenv0 "auth0|abc" "a@x.com"
           w0 alice); [reflexivity | reflexivity | |];
    intros Heq; discriminate Heq.
Defined.



(** ** Examples for the further properties *)

Lemma register_returns_stored_linked_row_witness :
  id alice_linked = id alice ∧
  get_user_by_id [alice_linked; bob] (id alice) = Some alice_linked ∧
  ∃ v, open_wearables_user_id alice_linked = Some v.
Proof.
  destruct (register_returns_stored_linked_row "key" uuid_of_str env_found
              alice w0 alice_linked _ eq_refl eq_refl)
    as (Hid & Hrow & _ & Hv).
  split_and!; [exact Hid | exact Hrow | exact Hv].
Defined.

Lemma register_alone_links_the_row_witness :
  ∃ row,
    get_user_by_id (tbl w0) (id alice) = Some row ∧
    register_with_open_wearables "key" uuid_of_str env_created alice w0
    = (Ok (set_link row 456),
       World [set_link alice 456; bob]
         [HttpGet "/api/v1/users"
            [("external_user_id", "auth0|abc"); ("limit", "1")];
          HttpPost "/api/v1/users"
            [("external_user_id", "auth0|abc"); ("email", "a@x.com")];
          SqlUpdateLink 1 456 1; Log INFO (MsgRegistered 1 456)]).
Proof.
  destruct (register_alone_links_the_row "key" uuid_of_str env_created
              alice w0 456%N _ eq_refl eq_refl eq_refl eq_refl)
    as (row & Hrow & Hrun & _).
  exists row. split; [exact Hrow | exact Hrun].
Defined.


Lemma unconfigured_client_sends_nothing_witness :
  create_user "" env_found "auth0|abc" "a@x.com" w0
    = (Raised OpenWearablesConfigurationError, w0) ∧
  sync_user_data "" str_of_uuid ascii_lower clock0
      (Response 200 (Some JNull)) (Some 123%N) "Garmin" "all" w0
    = (Raised OpenWearablesConfigurationError, w0).
Proof.
  pose proof (unconfigured_client_sends_nothing "" str_of_uuid ascii_lower
                env_found "auth0|abc" "a@x.com" NetworkError NetworkError
                NetworkError (Response 200 (Some JNull)) clock0 "Garmin"
                123%N (Some 123%N) None "" "" None 50%Z None "sleep" "all"
                w0 eq_refl) as H.
  simpl in H. destruct H as (_ & H2 & _ & _ & _ & _ & _ & H8).
  split; [exact H2 | exact H8].
Defined.

Lemma create_user_failed_lookup_sends_no_post_witness :
  lookup_failure env_broken = Some (HTTPStatusError 500) ∧
  create_user "key" env_broken "auth0|abc" "a@x.com" w0
  = (Raised (HTTPStatusError 500),
     World [alice; bob]
       [HttpGet "/api/v1/users"
          [("external_user_id", "auth0|abc"); ("limit", "1")]]).
Proof.
  split; [reflexivity|].
  apply (create_user_failed_lookup_sends_no_post "key" env_broken
           "auth0|abc" "a@x.com" w0 (HTTPStatusError 500));
    reflexivity.
Defined.

Lemma find_user_by_email_first_match_witness :
  ∃ r,
    find_user_by_email "key" (Response 200 listed_users) "a@x.com" w0
    = (Ok r, World [alice; bob]
               [HttpGet "/api/v1/users" [("limit", "100")]]) ∧
    match r with
    | Some user => ∃ before after,
        listed_users = before ++ user :: after ∧
        user !! "email" = Some "a@x.com" ∧
        Forall (λ other : dict, other !! "email" ≠ Some "a@x.com") before
    | None =>
        Forall (λ other : dict, other !! "email" ≠ Some "a@x.com")
          listed_users
    end.
Proof.
  apply (find_user_by_email_first_match "key" 200%N listed_users "a@x.com"
           w0); reflexivity.
Defined.

Lemma register_user_reports_stored_link_witness :
  ∃ l w',
    register_user "key" uuid_of_str env_created alice w_linked
    = (Ok (mkRegisterResponse l false), w') ∧
    get_user_by_id (tbl w') (id alice) = Some alice_linked.
Proof.
  destruct (register_user_reports_stored_link "key" uuid_of_str env_created
              alice w_linked alice_linked _ eq_refl eq_refl)
    as (l & Hrun & _ & Hrow).
  exists l. eexists. split; [exact Hrun | exact Hrow].
Defined.

Lemma get_current_user_established_user_is_read_only_witness :
  get_current_user "key" uuid_of_str token_linked cenv0 env_down w_linked
  = (Ok (mkUserInfo 1 "auth0|abc" "a@x.com" [] ∅), w_linked).
Proof.
  apply (get_current_user_established_user_is_read_only "key" uuid_of_str
           token_linked cenv0 env_down w_linked alice_linked 123%N);
    [reflexivity | reflexivity | | reflexivity].
  intros Heq. discriminate Heq.
Defined.

Lemma authorization_url_for_registered_user_witness :
  service_get_authorization_url "key" uuid_of_str str_of_uuid ascii_lower
    env_down (Response 200 {[ "authorization_url" := "https://garmin/x" ]})
    alice_linked "Garmin" None w_linked
  = (Ok (mkAuthorizationResponse "https://garmin/x" "Garmin"),
     World [alice_linked; bob]
       [HttpGet "/api/v1/oauth/garmin/authorize" [("user_id", "123")]]).
Proof.
  pose proof (authorization_url_for_registered_user "key" uuid_of_str
                str_of_uuid ascii_lower env_down 200%N
                {[ "authorization_url" := "https://garmin/x" ]} alice_linked
                123%N "Garmin" None w_linked eq_refl eq_refl eq_refl) as H.
  vm_compute in H. vm_compute. exact H.
Defined.

Lemma authorization_url_registers_first_witness :
  service_get_authorization_url "key" uuid_of_str str_of_uuid ascii_lower
    env_down (Response 200 ∅) alice "Garmin" None w0
  = (Raised HTTPRequestError,
     World [alice; bob]
       [HttpGet "/api/v1/users"
          [("external_user_id", "auth0|abc"); ("limit", "1")];
        Log ERROR (MsgRegisterFailed 1 HTTPRequestError)]).
Proof.
  apply (authorization_url_registers_first "key" uuid_of_str str_of_uuid
           ascii_lower env_down (Response 200 ∅) alice "Garmin" None w0
           (Raised HTTPRequestError) _ eq_refl eq_refl).
Defined.

Lemma sync_duplicate_data_is_success_witness :
  sync_user_data "key" str_of_uuid ascii_lower clock0
    (Response 400 (Some (JObj duplicate_detail))) (Some 123%N) "Suunto"
    "all" w0
  = (Ok already_synced,
     World [alice; bob]
       [HttpPost "/api/v1/providers/suunto/users/123/sync"
          [("data_type", "all"); ("since", "1766707200")]]).
Proof.
  pose proof (sync_duplicate_data_is_success "key" str_of_uuid ascii_lower
                clock0 duplicate_detail
                "UniqueViolation: key already exists; InvalidPullTokenException"
                (Some 123%N) "Suunto" "all" w0 eq_refl eq_refl
                (or_introl eq_refl)) as H.
  vm_compute in H. vm_compute. exact H.
Defined.

Lemma sync_400_needs_a_marker_witness :
  sync_user_data "key" str_of_uuid ascii_lower clock0
    (Response 400 (Some (JObj [("detail", JStr "bad request")])))
    (Some 123%N) "polar" "all" w0
  = (Raised (HTTPStatusError 400),
     World [alice; bob]
       [HttpPost "/api/v1/providers/polar/users/123/sync"
          [("data_type", "all")]]) ∧
  (HTTPStatusError 400 = HTTPStatusError 400 ∨
   HTTPStatusError 400 = OpenWearablesConfigurationError).
Proof.
  split; [reflexivity|].
  apply (sync_400_needs_a_marker "key" str_of_uuid ascii_lower clock0
           (Some (JObj [("detail", JStr "bad request")])) (Some 123%N)
           "polar" "all" w0 (Raised (HTTPStatusError 400)) _ eq_refl).
Defined.

Lemma summary_not_implemented_is_empty_page_witness :
  (get_activity_summary "key" str_of_uuid (Response 501 JNull) 123
     "2026-01-01" "2026-01-31" 50 None w0).1 = Ok empty_page ∧
  (get_sleep_sessions "key" str_of_uuid (Response 501 JNull) 123
     "2026-01-01" "2026-01-31" 50 None w0).1 = Raised (HTTPStatusError 501).
Proof.
  pose proof (summary_not_implemented_is_empty_page "key" str_of_uuid JNull
                123%N "2026-01-01" "2026-01-31" 50%Z None w0 eq_refl) as H.
  simpl in H. destruct H as (H1 & _ & _ & _ & H5).
  split; [exact H1 | exact H5].
Defined.

Lemma paged_requests_cap_limit_witness :
  trace (get_sleep_sessions "key" str_of_uuid (Response 200 JNull) 123
           "2026-01-01" "2026-01-31" 500 (Some "c1") w0).2
  = [HttpGet "/api/v1/users/123/events/sleep"
       [("start_date", "2026-01-01"); ("end_date", "2026-01-31");
        ("limit", "100"); ("cursor", "c1")]].
Proof.
  pose proof (paged_requests_cap_limit "key" str_of_uuid
                (Response 200 JNull) 123%N "2026-01-01" "2026-01-31" None
                500%Z (Some "c1") "sleep" w0 eq_refl) as H.
  simpl in H. destruct H as (_ & _ & H & _). exact H.
Defined.

Lemma authenticated_user_is_found_witness :
  ∃ user,
    _get_user_or_404
      (World [alice; bob]
         [HttpGet "/api/v1/users"
            [("external_user_id", "auth0|abc"); ("limit", "1")];
          Log ERROR (MsgRegisterFailed 1 HTTPRequestError);
          Log WARNING (MsgAutoRegisterFailed HTTPRequestError)]) 1
    = Answer user ∧ id user = 1%N.
Proof.
  apply (authenticated_user_is_found "key" uuid_of_str token0 cenv0 env_down
           w0 (mkUserInfo 1 "auth0|abc" "a@x.com" ["read:data"]
                          {[ "email" := "a@x.com" ]}) _ eq_refl).
Defined.

Lemma register_route_after_auto_registration_witness :
  ∃ l info w2,
    get_current_user "key" uuid_of_str token0 cenv0 env_found w0
      = (Ok info, w2) ∧
    route_register "key" uuid_of_str info env_down w2
      = (Answer (mkRegisterResponse l true), w2).
Proof.
  destruct (register_route_after_auto_registration "key" uuid_of_str token0
              cenv0 env_found env_down w0 alice w0 alice_linked _
              eq_refl eq_refl eq_refl)
    as (l & info & _ & Hcur & _ & Hroute).
  exists l, info. eexists. split; [exact Hcur | exact Hroute].
Defined.

